(** * NationVitals: county choropleth and data-access handlers

    A shallow embedding of
      - [src/components/CountyMapGL.tsx] (data loader, colour binning,
        fill expression, hover handlers),
      - the [years/{year}] route handler, and
      - the [compare] route handler,
    together with the properties stated about them. *)

From Stdlib Require Import QArith Qround Qabs Lqa.
From stdpp Require Import gmap strings list fin_maps.

Local Open Scope string_scope.
Local Open Scope list_scope.

(** ** JavaScript values used by the sources *)

Module JS.

(** A JavaScript [number].  Every finite double is a rational, so the
    finite values are embedded in [Q]; the three non-finite doubles are
    kept apart because the relational operators treat them specially. *)
Inductive number : Type :=
  | NaN
  | PosInfinity
  | NegInfinity
  | Finite (q : Q).

(** A numeric literal of the source text, e.g. [40] or [-20]. *)
Definition lit (z : Z) : number := Finite (inject_Z z).

Definition Qgtb (x y : Q) : bool := negb (Qle_bool x y).

(** [x > y] of JavaScript: false as soon as one side is [NaN]. *)
Definition gt (x y : number) : bool :=
  match x, y with
  | NaN, _ => false
  | _, NaN => false
  | PosInfinity, PosInfinity => false
  | PosInfinity, _ => true
  | NegInfinity, _ => false
  | Finite _, PosInfinity => false
  | Finite _, NegInfinity => true
  | Finite a, Finite b => Qgtb a b
  end.

(** Truthiness of a value that is a string, [null] or [undefined]. *)
Definition truthy (s : option string) : bool :=
  match s with
  | None => false
  | Some s => negb (String.eqb s EmptyString)
  end.

(** Truthiness of a value that is a number or [null]: [null], zero
    and [NaN] are falsy. *)
Definition number_truthy (v : option number) : bool :=
  match v with
  | None => false
  | Some NaN => false
  | Some (Finite q) => negb (Qeq_bool q 0)
  | Some _ => true
  end.

(** [a || b] where [a] is a string, [null] or [undefined]. *)
Definition or_else (a : option string) (b : string) : string :=
  match a with
  | Some s => if String.eqb s EmptyString then b else s
  | None => b
  end.

(** [a === b] where [a] is a string or [null] and [b] a string. *)
Definition strict_eq (a : option string) (b : string) : bool :=
  match a with
  | Some s => String.eqb s b
  | None => false
  end.

(** An element of the array handed to the map library: a string or an
    array of strings such as [['get', 'GEOID']]. *)
Inductive value : Type :=
  | VStr (s : string)
  | VArr (items : list string).

(** A paint property: a constant colour or an expression array. *)
Inductive paint : Type :=
  | PaintColor (c : string)
  | PaintExpression (e : list value).

(** Property access [obj[k]] turns an [undefined] key into the
    property name ["undefined"]. *)
Definition property_key (k : option string) : string :=
  match k with
  | Some s => s
  | None => "undefined"
  end.

(** [`${v}`] for a value that is a string or [null]. *)
Definition interpolate (v : option string) : string :=
  match v with
  | Some s => s
  | None => "null"
  end.

(** White space removed by [String.prototype.trim] (the ASCII part:
    tab, line feed, vertical tab, form feed, carriage return, space). *)
Definition is_space (c : Ascii.ascii) : bool :=
  let n := Ascii.nat_of_ascii c in
  ((9 <=? n)%nat && (n <=? 13)%nat) || (n =? 32)%nat.

Fixpoint trim_start (s : string) : string :=
  match s with
  | EmptyString => EmptyString
  | String c rest => if is_space c then trim_start rest else s
  end.

(** Drops trailing white space: a suffix of spaces collapses to the
    empty string as the recursion returns. *)
Fixpoint trim_end (s : string) : string :=
  match s with
  | EmptyString => EmptyString
  | String c rest =>
      match trim_end rest with
      | EmptyString => if is_space c then EmptyString else String c EmptyString
      | kept => String c kept
      end
  end.

Definition trim (s : string) : string := trim_end (trim_start s).

(** [s.includes(sub)] *)
Definition includes (s sub : string) : bool :=
  match String.index 0 sub s with
  | Some _ => true
  | None => false
  end.

End JS.

Declare Scope js_scope.
Infix ">?" := JS.gt (at level 70, no associativity) : js_scope.
Delimit Scope js_scope with js.

(** ** The map component, [src/components/CountyMapGL.tsx] *)

Module CountyMapGL.
Import JS.

(** [interface CountyData]; a field that is [null] is [None]. *)
Record CountyData : Type := mkCountyData {
  fips : option string;
  DrugDeaths : option number;
  DrugDeathRate : option number;
  RepublicanMargin : option number;
  Population : option number;
  SuicideDeaths : option number;
  UnemploymentRate : option number;
  PovertyRate : option number;
  MedianIncome : option number
}.

(** [getColorForValue], lines 130-149. *)
Definition getColorForValue (value : option number) (isPolitic : bool) : string :=
  match value with
  | None => "#e5e7eb"
  | Some value =>
      if isPolitic then
        if (value >? lit 40)%js then "#7f1d1d"
        else if (value >? lit 20)%js then "#dc2626"
        else if (value >? lit 0)%js then "#fca5a5"
        else if (value >? lit (-20))%js then "#93c5fd"
        else if (value >? lit (-40))%js then "#2563eb"
        else "#1e3a8a"
      else
        if (value >? lit 40)%js then "#7f1d1d"
        else if (value >? lit 30)%js then "#dc2626"
        else if (value >? lit 20)%js then "#f97316"
        else if (value >? lit 10)%js then "#facc15"
        else "#22c55e"
  end.

(** The colour binning as the specification words it: an ordered list
    of (exclusive lower bound, colour) pairs, scanned top-down with a
    strict greater-than test, first match wins, and a colour for
    everything that matches no bound. *)
Fixpoint ladder_lookup (ladder : list (number * string)) (otherwise : string)
    (v : number) : string :=
  match ladder with
  | [] => otherwise
  | (bound, colour) :: rest =>
      if (v >? bound)%js then colour else ladder_lookup rest otherwise v
  end.

Definition neutral_colour : string := "#e5e7eb".

Definition mortality_ladder : list (number * string) :=
  [ (lit 40, "#7f1d1d"); (lit 30, "#dc2626");
    (lit 20, "#f97316"); (lit 10, "#facc15") ].
Definition mortality_lowest : string := "#22c55e".

Definition political_ladder : list (number * string) :=
  [ (lit 40, "#7f1d1d"); (lit 20, "#dc2626"); (lit 0, "#fca5a5");
    (lit (-20), "#93c5fd"); (lit (-40), "#2563eb") ].
Definition political_lowest : string := "#1e3a8a".

Definition ColorForValue_spec (v : option number) (isPolitical : bool) : string :=
  match v with
  | None => neutral_colour
  | Some x =>
      if isPolitical then ladder_lookup political_ladder political_lowest x
      else ladder_lookup mortality_ladder mortality_lowest x
  end.

(** The colours of a ladder, one per bin, highest bin first. *)
Definition bin_colours (isPolitical : bool) : list string :=
  if isPolitical then (political_ladder.*2) ++ [political_lowest]
  else (mortality_ladder.*2) ++ [mortality_lowest].

(** *** Loading the county data, lines 28-41 *)

(** [dataMap] is a plain object: it has its own keys, a finite map
    from names to records, and a prototype, which is [Object.prototype]
    until the name [__proto__] is assigned.  The body of
    [data.forEach(county => ...)] assigns [dataMap[county.fips] = county]
    when [fips] is truthy and different from ['0'].  Under the name
    [__proto__] the assignment runs the setter inherited from
    [Object.prototype]: the record becomes the prototype of [dataMap]
    and no key is added ([storePrototype]); under every other name it
    adds or overwrites an own key ([storeCounty]). *)
Definition storeCounty (dataMap : gmap string CountyData) (county : CountyData)
    : gmap string CountyData :=
  if truthy (fips county) && negb (strict_eq (fips county) "0")
  then
    if strict_eq (fips county) "__proto__" then dataMap
    else <[property_key (fips county) := county]> dataMap
  else dataMap.

(** The prototype of [dataMap] after the same assignment: [None] is
    [Object.prototype], [Some c] the record [c]. *)
Definition storePrototype (proto : option CountyData) (county : CountyData)
    : option CountyData :=
  if truthy (fips county) && negb (strict_eq (fips county) "0")
  then
    if strict_eq (fips county) "__proto__" then Some county
    else proto
  else proto.

(** The own keys of [dataMap] once the [forEach] has run over the
    fetched array, and its prototype. *)
Definition buildDataMap (data : list CountyData) : gmap string CountyData :=
  foldl storeCounty ∅ data.

Definition buildPrototype (data : list CountyData) : option CountyData :=
  foldl storePrototype None data.

(** *** Reading a property of the data object, [countyData[key]] *)

(** The names every plain object inherits from [Object.prototype]. *)
Definition objectPrototypeNames : list string :=
  [ "constructor"; "__defineGetter__"; "__defineSetter__"; "hasOwnProperty";
    "__lookupGetter__"; "__lookupSetter__"; "isPrototypeOf";
    "propertyIsEnumerable"; "toString"; "valueOf"; "__proto__";
    "toLocaleString" ].



(** What a property read gives: a record; some other value, of which
    only the truthiness matters (a method of [Object.prototype],
    [Object.prototype] itself, a field of the prototype record); or
    [undefined]. *)
Inductive property : Type :=
  | PRecord (data : CountyData)
  | PValue (isTruthy : bool)
  | PUndefined.

(** The truthiness of field [key] of a record, if it is one of its
    fields. *)
Definition recordField (c : CountyData) (key : string) : option bool :=
  if String.eqb key "fips" then Some (truthy (fips c))
  else if String.eqb key "DrugDeaths" then Some (number_truthy (DrugDeaths c))
  else if String.eqb key "DrugDeathRate" then Some (number_truthy (DrugDeathRate c))
  else if String.eqb key "RepublicanMargin"
    then Some (number_truthy (RepublicanMargin c))
  else if String.eqb key "Population" then Some (number_truthy (Population c))
  else if String.eqb key "SuicideDeaths" then Some (number_truthy (SuicideDeaths c))
  else if String.eqb key "UnemploymentRate"
    then Some (number_truthy (UnemploymentRate c))
  else if String.eqb key "PovertyRate" then Some (number_truthy (PovertyRate c))
  else if String.eqb key "MedianIncome" then Some (number_truthy (MedianIncome c))
  else None.

(** What [Object.prototype] gives under [key] to an object whose
    prototype is [proto]: the getter [__proto__] gives the prototype
    itself, the other names give methods. *)
Definition fromObjectPrototype (proto : option CountyData) (key : string)
    : property :=
  if String.eqb key "__proto__" then
    match proto with
    | Some c => PRecord c
    | None => PValue true
    end
  else if bool_decide (key ∈ objectPrototypeNames) then PValue true
  else PUndefined.

(** [obj[key]]: an own key first, then the prototype record if there
    is one, then [Object.prototype]. *)
Definition getProperty (own : gmap string CountyData) (proto : option CountyData)
    (key : string) : property :=
  match own !! key with
  | Some data => PRecord data
  | None =>
      match proto with
      | Some c =>
          match recordField c key with
          | Some isTruthy => PValue isTruthy
          | None => fromObjectPrototype proto key
          end
      | None => fromObjectPrototype proto key
      end
  end.

(** Every key is a non-empty code other than ["0"], and it is the
    [fips] of the record stored under it. *)
Definition keys_ok (m : gmap string CountyData) : Prop :=
  ∀ k d, m !! k = Some d → k ≠ EmptyString ∧ k ≠ "0" ∧ fips d = Some k.

(** *** Component state *)

Inductive Metric : Type := drugDeaths | republicanMargin.

(** [{ name: countyName, ...data }] *)
Record Hovered : Type := mkHovered {
  name : option string;
  county : CountyData
}.

(** The fields of [{ name: countyName, ...data }] when [data] is not a
    record (a method, [Object.prototype], a string, a number): the
    spread provides none of the fields of a record, so the tooltip
    reads them as [undefined].  [undefined] is written [None] where the
    tooltip cannot tell it from [null] (optional chaining, truthiness,
    text output), and [NaN] for [RepublicanMargin], which the tooltip
    compares with [null] and then uses as a number
    ([undefined !== null], [undefined > 0] is false and
    [Math.abs(undefined)] is [NaN]). *)
Definition undefinedFields : CountyData :=
  {| fips := None; DrugDeaths := None; DrugDeathRate := None;
     RepublicanMargin := Some NaN; Population := None; SuicideDeaths := None;
     UnemploymentRate := None; PovertyRate := None; MedianIncome := None |}.

(** What the component reads and writes of the [maplibregl.Map]:
    the ['fill-color'] paint of layer ['counties-fill'] ([None] while
    the layer does not exist) and the cursor style of the canvas. *)
Record MapGL : Type := mkMapGL {
  countiesFill : option paint;
  cursor : string
}.

(** [countyData] holds the own keys of the data object and
    [countyDataProto] its prototype ([None] is [Object.prototype]). *)
Record State : Type := mkState {
  countyData : gmap string CountyData;
  countyDataProto : option CountyData;
  metric : Metric;
  hoveredCounty : option Hovered;
  loading : bool;
  map_current : option MapGL
}.

Definition initialState : State :=
  {| countyData := ∅; countyDataProto := None; metric := drugDeaths;
     hoveredCounty := None; loading := true; map_current := None |}.

(** *** [updateMapColors], lines 151-165 *)

Definition isRepublicanMargin (m : Metric) : bool :=
  match m with republicanMargin => true | drugDeaths => false end.

Definition metricValue (m : Metric) (data : CountyData) : option number :=
  match m with
  | drugDeaths => DrugDeathRate data
  | republicanMargin => RepublicanMargin data
  end.

Definition defaultColor : string := "#e5e7eb".

(** One round of the [forEach] over [Object.entries(countyData)]. *)
Definition pushEntry (m : Metric) (fillExpression : list value)
    (entry : string * CountyData) : list value :=
  let value := metricValue m entry.2 in
  let color := getColorForValue value (isRepublicanMargin m) in
  fillExpression ++ [VStr entry.1; VStr color].

(** The colour [pushEntry] computes for a record. *)
Definition entryColor (m : Metric) (data : CountyData) : string :=
  getColorForValue (metricValue m data) (isRepublicanMargin m).

(** The array handed to [setPaintProperty].  The order in which
    [Object.entries] lists the counties is that of [map_to_list]. *)
Definition fillExpression (cd : gmap string CountyData) (m : Metric) : list value :=
  foldl (pushEntry m) [VStr "match"; VArr ["get"; "GEOID"]]
        (map_to_list cd)
  ++ [VStr defaultColor].

Definition updateMapColors (st : State) : State :=
  match map_current st with
  | None => st
  | Some mp =>
      match countiesFill mp with
      | None => st
      | Some _ =>
          {| countyData := countyData st;
             countyDataProto := countyDataProto st; metric := metric st;
             hoveredCounty := hoveredCounty st; loading := loading st;
             map_current :=
               Some {| countiesFill :=
                         Some (PaintExpression (fillExpression (countyData st) (metric st)));
                       cursor := cursor mp |} |}
      end
  end.

(** *** Evaluation of a [match] expression by the map library

    [["match", ["get", p], label_1, output_1, ..., fallback]] needs at
    least one label/output pair, string labels that are pairwise
    different, and a fallback; it yields the output of the label equal
    to property [p] of the feature and the fallback otherwise.  [None]
    stands for an expression the library rejects. *)

Fixpoint parse_branches (args : list value)
    : option (list (string * value) * value) :=
  match args with
  | [fallback] => Some ([], fallback)
  | VStr label :: output :: rest =>
      match parse_branches rest with
      | Some (branches, fallback) => Some ((label, output) :: branches, fallback)
      | None => None
      end
  | _ => None
  end.

Fixpoint select_branch (branches : list (string * value)) (fallback : value)
    (input : option string) : value :=
  match branches with
  | [] => fallback
  | (label, output) :: rest =>
      if strict_eq input label then output
      else select_branch rest fallback input
  end.

Definition eval_match (e : list value) (GEOID : option string) : option value :=
  match e with
  | VStr op :: VArr [getter; prop] :: args =>
      if String.eqb op "match" && String.eqb getter "get"
         && String.eqb prop "GEOID"
      then
        match parse_branches args with
        | Some (b :: bs, fallback) =>
            if bool_decide (NoDup ((b :: bs).*1))
            then Some (select_branch (b :: bs) fallback GEOID)
            else None
        | _ => None
        end
      else None
  | _ => None
  end.

(** *** Hover handlers, lines 171-201 *)

(** [feature.properties?.GEOID] and [feature.properties?.NAME]. *)
Record Feature : Type := mkFeature {
  GEOID : option string;
  NAME : option string
}.

Definition setHovered (h : option Hovered) (c : string) (st : State) : State :=
  {| countyData := countyData st; countyDataProto := countyDataProto st;
     metric := metric st;
     hoveredCounty := h; loading := loading st;
     map_current :=
       match map_current st with
       | Some mp => Some {| countiesFill := countiesFill mp; cursor := c |}
       | None => None
       end |}.

(** [features] is the result of [queryRenderedFeatures]. *)
Definition handleMouseMove (features : list Feature) (st : State) : State :=
  match map_current st with
  | None => st
  | Some _ =>
      match features with
      | feature :: _ =>
          let fips := GEOID feature in
          let countyName := NAME feature in
          match getProperty (countyData st) (countyDataProto st)
                            (property_key fips) with
          | PRecord data =>
              setHovered (Some {| name := countyName; county := data |})
                         "pointer" st
          | PValue true =>
              setHovered (Some {| name := countyName; county := undefinedFields |})
                         "pointer" st
          | PValue false => st
          | PUndefined => st
          end
      | [] => setHovered None EmptyString st
      end
  end.

Definition handleMouseLeave (st : State) : State :=
  setHovered None EmptyString st.

(** *** The component as a transition system

    [MapRef] stands for every change of [map.current] made outside the
    functions above (creation, removal, a layer being added). *)
Inductive Event : Type :=
  | DataFetched (data : list CountyData)
  | MetricSelected (m : Metric)
  | MouseMove (features : list Feature)
  | MouseLeave
  | MapRef (mp : option MapGL).

Definition step (st : State) (e : Event) : State :=
  match e with
  | DataFetched data =>
      updateMapColors
        {| countyData := buildDataMap data;
           countyDataProto := buildPrototype data; metric := metric st;
           hoveredCounty := hoveredCounty st; loading := false;
           map_current := map_current st |}
  | MetricSelected m =>
      updateMapColors
        {| countyData := countyData st; countyDataProto := countyDataProto st;
           metric := m;
           hoveredCounty := hoveredCounty st; loading := loading st;
           map_current := map_current st |}
  | MouseMove features => handleMouseMove features st
  | MouseLeave => handleMouseLeave st
  | MapRef mp =>
      {| countyData := countyData st; countyDataProto := countyDataProto st;
         metric := metric st;
         hoveredCounty := hoveredCounty st; loading := loading st;
         map_current := mp |}
  end.

Definition run (events : list Event) : State := foldl step initialState events.

End CountyMapGL.

(** ** Route handlers: what they share *)

Module Handler.
Import JS.

(** A JSON document, as produced by [JSON.parse] and sent by
    [NextResponse.json]. *)
#[warnings="-register-all"]
Inductive json : Type :=
  | JNull
  | JBool (b : bool)
  | JNum (n : number)
  | JStr (s : string)
  | JArr (items : list json)
  | JObj (fields : list (string * json)).

(** The two arguments of [NextResponse.json(body, init)]: the body and,
    from [init], the status (200 when none is given) and the headers.
    [headers] lists the headers the handler passes in [init], as it
    writes them; [NextResponse.json] itself adds
    [content-type: application/json] to every response whose [init]
    names no content type, and that header is not part of this field. *)
Record Response : Type := mkResponse {
  status : Z;
  body : json;
  headers : list (string * string)
}.

(** What a handler does to the outside world, in order. *)
Inductive effect : Type :=
  | Spawn (command : string) (timeout : Z)
  | ConsoleError (label detail : string).

(** A computation either returns or throws an error with a message. *)
Inductive outcome (A : Type) : Type :=
  | Return (a : A)
  | Throw (message : string).
Arguments Return {A} a.
Arguments Throw {A} message.

(** Handlers run in a state-and-exception monad over the effect log. *)
Definition M (A : Type) : Type := list effect -> outcome A * list effect.

Definition ret {A} (a : A) : M A := fun log => (Return a, log).

Definition throw {A} (message : string) : M A := fun log => (Throw message, log).

Definition bind {A B} (m : M A) (k : A -> M B) : M B :=
  fun log =>
    match m log with
    | (Return a, log') => k a log'
    | (Throw message, log') => (Throw message, log')
    end.

(** [try { body } catch (error) { handler }] *)
Definition try_catch {A} (body : M A) (handler : string -> M A) : M A :=
  fun log =>
    match body log with
    | (Return a, log') => (Return a, log')
    | (Throw message, log') => handler message log'
    end.

Definition emit (e : effect) : M unit := fun log => (Return tt, log ++ [e]).

Definition lift {A} (o : outcome A) : M A := fun log => (o, log).

Definition when (c : bool) (m : M unit) : M unit := if c then m else ret tt.

(** The spawn events of a log, in order. *)
Definition spawned (log : list effect) : list (string * Z) :=
  omap (fun e => match e with
                 | Spawn command timeout => Some (command, timeout)
                 | ConsoleError _ _ => None
                 end) log.

(** [URLSearchParams.get]: the first value stored under the name. *)
Fixpoint get (searchParams : list (string * string)) (name : string)
    : option string :=
  match searchParams with
  | [] => None
  | (k, v) :: rest => if String.eqb k name then Some v else get rest name
  end.

End Handler.

Declare Scope handler_scope.
Notation "'let*' x ':=' m 'in' k" := (Handler.bind m (fun x => k))
  (at level 10, x name, m at level 100, k at level 200) : handler_scope.
Delimit Scope handler_scope with handler.

(** ** [GET /api/years/{year}] *)

Module Years.
Import JS Handler.

(** An entry of the file system. *)
Inductive node : Type :=
  | File (contents : string)
  | Directory.

Section Runtime.
(** [process.cwd()], [path.join], the file system and [JSON.parse]. *)
Context (cwd : string) (path_join : list string -> string)
        (files : gmap string node)
        (JSON_parse : string -> outcome json).

Definition existsSync (p : string) : bool :=
  match files !! p with
  | Some _ => true
  | None => false
  end.

Definition readFileSync (p : string) : M string :=
  match files !! p with
  | Some (File contents) => ret contents
  | Some Directory => throw "EISDIR: illegal operation on a directory, read"
  | None => throw "ENOENT: no such file or directory"
  end.

Definition GET (year : string) : M Response :=
  try_catch
    (let filePath :=
       path_join [cwd; "public"; "data"; "years"; year +:+ ".json"] in
     if negb (existsSync filePath) then
       ret {| status := 404;
              body := JObj [("error", JStr ("Year " +:+ year +:+ " not found"))];
              headers := [] |}
     else
       (let* fileContents := readFileSync filePath in
        let* data := lift (JSON_parse fileContents) in
        ret {| status := 200;
               body := data;
               headers :=
                 [("Content-Type", "application/json");
                  ("Cache-Control", "public, max-age=31536000, immutable")] |})%handler)
    (fun error =>
       (let* _ := emit (ConsoleError "Error loading year data:" error) in
        ret {| status := 500;
               body := JObj [("error", JStr "Failed to load year data")];
               headers := [] |})%handler).

End Runtime.
End Years.

(** ** [GET /api/compare] *)

Module Compare.
Import JS Handler.

Definition quote : string := String (Ascii.ascii_of_nat 34) EmptyString.
Definition newline : string := String (Ascii.ascii_of_nat 10) EmptyString.

(** The values read from the query string, lines 11-16. *)
Record Params : Type := mkParams {
  countyA : option string;
  countyB : option string;
  year : string;
  controlPoverty : bool;
  controlIncome : bool;
  controlUrbanRural : bool
}.

Definition readParams (searchParams : list (string * string)) : Params :=
  {| countyA := get searchParams "countyA";
     countyB := get searchParams "countyB";
     year := or_else (get searchParams "year") "2023";
     controlPoverty := strict_eq (get searchParams "controlPoverty") "true";
     controlIncome := strict_eq (get searchParams "controlIncome") "true";
     controlUrbanRural := strict_eq (get searchParams "controlUrbanRural") "true" |}.

Definition pyBool (b : bool) : string := if b then "True" else "False".

(** The template literal of lines 32-45. *)
Definition command (cwd : string) (p : Params) : string :=
  "python3 -c " +:+ quote +:+ newline +:+
  "import sys" +:+ newline +:+
  "sys.path.insert(0, '" +:+ cwd +:+ "')" +:+ newline +:+
  "from statistical_controls import adjust_for_confounders" +:+ newline +:+
  "import json" +:+ newline +:+
  "result = adjust_for_confounders(" +:+ newline +:+
  "    '" +:+ interpolate (countyA p) +:+ "'," +:+ newline +:+
  "    '" +:+ interpolate (countyB p) +:+ "'," +:+ newline +:+
  "    " +:+ year p +:+ "," +:+ newline +:+
  "    " +:+ pyBool (controlPoverty p) +:+ "," +:+ newline +:+
  "    " +:+ pyBool (controlIncome p) +:+ "," +:+ newline +:+
  "    " +:+ pyBool (controlUrbanRural p) +:+ newline +:+
  ")" +:+ newline +:+
  "print(json.dumps(result))" +:+ newline +:+ quote.

Section Runtime.
(** [process.cwd()], [JSON.parse] and the child process: [child]
    gives what [exec] resolves to ([stdout], [stderr]) or the error
    it rejects with (non-zero exit, kill on timeout, spawn failure). *)
Context (cwd : string)
        (JSON_parse : string -> outcome json)
        (child : string -> Z -> outcome (string * string)).

(** [execAsync(command, { cwd, timeout })] *)
Definition execAsync (cmd : string) (timeout : Z) : M (string * string) :=
  (let* _ := emit (Spawn cmd timeout) in lift (child cmd timeout))%handler.

Definition GET (searchParams : list (string * string)) : M Response :=
  try_catch
    (let p := readParams searchParams in
     if negb (truthy (countyA p)) || negb (truthy (countyB p)) then
       ret {| status := 400;
              body := JObj [("error",
                             JStr "Missing required parameters: countyA, countyB")];
              headers := [] |}
     else
       (let* out := execAsync (command cwd p) 10000 in
        let stdout := out.1 in
        let stderr := out.2 in
        let* _ := when (negb (String.eqb stderr EmptyString)
                        && negb (includes stderr "FutureWarning"))
                       (emit (ConsoleError "Python stderr:" stderr)) in
        let* result := lift (JSON_parse (trim stdout)) in
        ret {| status := 200;
               body := result;
               headers := [("Cache-Control", "public, max-age=3600")] |})%handler)
    (fun error =>
       (let* _ := emit (ConsoleError "Error in compare API:" error) in
        ret {| status := 500;
               body := JObj [("error", JStr "Failed to compute adjusted comparison");
                             ("details", JStr error)];
               headers := [] |})%handler).

End Runtime.
End Compare.

(** ** [GET /api/geojson] *)

Module Geojson.
Import JS.

(** An error object with its (non-empty) name and its message. *)
Record error : Type := mkError {
  errorName : string;
  errorMessage : string
}.

(** [String(error)]: the name alone when there is no message. *)
Definition String_error (e : error) : string :=
  if String.eqb (errorMessage e) EmptyString then errorName e
  else errorName e +:+ ": " +:+ errorMessage e.

(** An argument of [console.log] or [console.error]. *)
Inductive logged : Type :=
  | LString (s : string)
  | LBoolean (b : bool)
  | LValue (v : option Handler.json)
  | LNames (names : list string)
  | LError (e : error).

Inductive effect : Type :=
  | ConsoleLog (args : list logged)
  | ConsoleError (args : list logged).

Inductive outcome (A : Type) : Type :=
  | Return (a : A)
  | Throw (e : error).
Arguments Return {A} a.
Arguments Throw {A} e.

(** The handler monad of this route: a console log and exceptions
    that carry an error object. *)
Definition M (A : Type) : Type := list effect -> outcome A * list effect.

Definition ret {A} (a : A) : M A := fun log => (Return a, log).

Definition throw {A} (e : error) : M A := fun log => (Throw e, log).

Definition bind {A B} (m : M A) (k : A -> M B) : M B :=
  fun log =>
    match m log with
    | (Return a, log') => k a log'
    | (Throw e, log') => (Throw e, log')
    end.

Definition try_catch {A} (body : M A) (handler : error -> M A) : M A :=
  fun log =>
    match body log with
    | (Return a, log') => (Return a, log')
    | (Throw e, log') => handler e log'
    end.

Definition console_log (args : list logged) : M unit :=
  fun log => (Return tt, log ++ [ConsoleLog args]).

Definition console_error (args : list logged) : M unit :=
  fun log => (Return tt, log ++ [ConsoleError args]).

Declare Scope geojson_scope.
Delimit Scope geojson_scope with geojson.
Notation "'let*' x ':=' m 'in' k" := (bind m (fun x => k))
  (at level 10, x name, m at level 100, k at level 200) : geojson_scope.

(** The own property [key] of a parsed object (which holds each key
    once). *)
Fixpoint getProperty (fields : list (string * Handler.json)) (key : string)
    : option Handler.json :=
  match fields with
  | [] => None
  | (k, v) :: rest => if String.eqb k key then Some v else getProperty rest key
  end.

(** [geojson.features?.length]: reading [features] of [null] is a
    [TypeError]; a missing or [null] [features] gives [undefined];
    arrays and strings have their length (strings: for ASCII text),
    objects their own [length] property, if any. *)
Definition featuresLength (geojson : Handler.json) : M (option Handler.json) :=
  match geojson with
  | Handler.JNull =>
      throw {| errorName := "TypeError";
               errorMessage := "Cannot read properties of null (reading 'features')" |}
  | Handler.JObj fields =>
      match getProperty fields "features" with
      | Some (Handler.JArr items) =>
          ret (Some (Handler.JNum (lit (Z.of_nat (length items)))))
      | Some (Handler.JStr s) =>
          ret (Some (Handler.JNum (lit (Z.of_nat (String.length s)))))
      | Some (Handler.JObj inner) => ret (getProperty inner "length")
      | _ => ret None
      end
  | _ => ret None
  end.

Section Runtime.
(** [process.cwd()], [path.join], the file system with the names
    listed in each directory, and [JSON.parse]. *)
Context (cwd : string) (path_join : list string -> string)
        (files : gmap string Years.node)
        (listing : string -> list string)
        (JSON_parse : string -> Handler.outcome Handler.json).

Definition existsSync (p : string) : bool :=
  match files !! p with
  | Some _ => true
  | None => false
  end.

Definition readdirSync (p : string) : M (list string) :=
  match files !! p with
  | Some Years.Directory => ret (listing p)
  | Some (Years.File _) =>
      throw {| errorName := "Error";
               errorMessage := "ENOTDIR: not a directory, scandir '" +:+ p +:+ "'" |}
  | None =>
      throw {| errorName := "Error";
               errorMessage :=
                 "ENOENT: no such file or directory, scandir '" +:+ p +:+ "'" |}
  end.

Definition readFileSync (p : string) : M string :=
  match files !! p with
  | Some (Years.File contents) => ret contents
  | Some Years.Directory =>
      throw {| errorName := "Error";
               errorMessage := "EISDIR: illegal operation on a directory, read" |}
  | None =>
      throw {| errorName := "Error";
               errorMessage :=
                 "ENOENT: no such file or directory, open '" +:+ p +:+ "'" |}
  end.

Definition parse (text : string) : M Handler.json :=
  match JSON_parse text with
  | Handler.Return document => ret document
  | Handler.Throw message =>
      throw {| errorName := "SyntaxError"; errorMessage := message |}
  end.

Definition GET : M Handler.Response :=
  try_catch
    (let filePath := path_join [cwd; "public"; "data"; "us_counties.geojson"] in
     let* _ := console_log [LString "Attempting to load GeoJSON from:";
                            LString filePath] in
     let* _ := console_log [LString "File exists:";
                            LBoolean (existsSync filePath)] in
     if negb (existsSync filePath) then
       let* _ := console_error [LString "GeoJSON file not found at:";
                                LString filePath] in
       let* _ := console_log [LString "Current working directory:";
                              LString cwd] in
       let* names := readdirSync (path_join [cwd; "public"; "data"]) in
       let* _ := console_log [LString "Directory contents:";
                              LNames (take 10 names)] in
       ret {| Handler.status := 404;
              Handler.body :=
                Handler.JObj [("error", Handler.JStr "GeoJSON file not found");
                              ("path", Handler.JStr filePath)];
              Handler.headers := [] |}
     else
       let* fileContents := readFileSync filePath in
       let* geojson := parse fileContents in
       let* count := featuresLength geojson in
       let* _ := console_log [LString "✓ Successfully loaded GeoJSON with";
                              LValue count; LString "features"] in
       ret {| Handler.status := 200;
              Handler.body := geojson;
              Handler.headers :=
                [("Content-Type", "application/geo+json");
                 ("Cache-Control", "public, max-age=31536000, immutable")] |})%geojson
    (fun error =>
       (let* _ := console_error [LString "Error loading GeoJSON:"; LError error] in
        ret {| Handler.status := 500;
               Handler.body :=
                 Handler.JObj [("error", Handler.JStr "Failed to load GeoJSON");
                               ("details", Handler.JStr (String_error error))];
               Handler.headers := [] |})%geojson).

End Runtime.

(** The three responses of [GET], lines 15-18, 25-30 and 33-36, named
    for the statements about it. *)
Definition notFound (p : string) : Handler.Response :=
  {| Handler.status := 404;
     Handler.body :=
       Handler.JObj [("error", Handler.JStr "GeoJSON file not found");
                     ("path", Handler.JStr p)];
     Handler.headers := [] |}.

Definition failed (details : string) : Handler.Response :=
  {| Handler.status := 500;
     Handler.body :=
       Handler.JObj [("error", Handler.JStr "Failed to load GeoJSON");
                     ("details", Handler.JStr details)];
     Handler.headers := [] |}.

Definition served (geojson : Handler.json) : Handler.Response :=
  {| Handler.status := 200;
     Handler.body := geojson;
     Handler.headers :=
       [("Content-Type", "application/geo+json");
        ("Cache-Control", "public, max-age=31536000, immutable")] |}.

End Geojson.

(** ** The map component: life cycle, legend and tooltip *)

Module CountyMapView.
Import JS CountyMapGL.

(** *** Creating the map and its county layer *)

(** Lines 214-218 and 309: the container [div] is part of the output
    only when [loading] is false, so only then is
    [mapContainer.current] set. *)
Definition containerRendered (st : State) : bool := negb (loading st).

Definition withMap (mp : option MapGL) (st : State) : State :=
  {| countyData := countyData st; countyDataProto := countyDataProto st;
     metric := metric st;
     hoveredCounty := hoveredCounty st; loading := loading st;
     map_current := mp |}.

(** The mount effect, lines 44-72; [container] tells whether
    [mapContainer.current] is set.  The new map has no county layer. *)
Definition initMap (container : bool) (st : State) : State :=
  match map_current st with
  | Some _ => st
  | None =>
      if negb container then st
      else withMap (Some {| countiesFill := None; cursor := EmptyString |}) st
  end.

(** Its cleanup, lines 73-76. *)
Definition removeMap (st : State) : State := withMap None st.

(** What the effects leave after the first render, in source order:
    the fetch is started (its answer is a later [DataFetched]), the
    mount effect runs on the first output, the layer effect only
    registers a callback, [updateMapColors] runs, the hover effect only
    registers handlers. *)
Definition mounted : State :=
  updateMapColors (initMap (containerRendered initialState) initialState).

(** Line 81: the layer effect gives up when this holds. *)
Definition layerEffectSkipped (st : State) : bool :=
  match map_current st with
  | None => true
  | Some _ => loading st || (length (map_to_list (countyData st)) =? 0)%nat
  end.

(** Lines 89-120, run when the boundaries arrive.  [closure] is the
    state of the render whose effect registered the callback: its
    [countyData] and [metric] are the ones [updateMapColors] sees;
    [now] is [map.current] at that moment.  A map that already has the
    county layer has the source too, and [addSource] throws before
    anything is changed. *)
Definition countiesLoaded (closure : State) (now : option MapGL) : option MapGL :=
  match now with
  | None => None
  | Some mp =>
      match countiesFill mp with
      | Some _ => Some mp
      | None =>
          map_current
            (updateMapColors
               (withMap (Some {| countiesFill := Some (PaintColor "#94a3b8");
                                 cursor := cursor mp |}) closure))
      end
  end.

(** *** Legend, lines 247-305 *)

Definition legendTitle (m : Metric) : string :=
  match m with
  | drugDeaths => "Drug Death Rate (per 100k)"
  | republicanMargin => "Republican Margin (%)"
  end.

(** The swatches in the order they are drawn: colour and caption. *)
Definition legend (m : Metric) : list (string * string) :=
  match m with
  | drugDeaths =>
      [ ("#22c55e", "<10"); ("#facc15", "10-20"); ("#f97316", "20-30");
        ("#dc2626", "30-40"); ("#7f1d1d", ">40") ]
  | republicanMargin =>
      [ ("#1e3a8a", "D+40"); ("#2563eb", "D+20"); ("#93c5fd", "D+0");
        ("#fca5a5", "R+0"); ("#dc2626", "R+20"); ("#7f1d1d", "R+40") ]
  end.

(** *** Tooltip, lines 312-348 *)

(** [Math.abs] and [Math.round] (half-way cases go up). *)
Definition Math_abs (x : number) : number :=
  match x with
  | NaN => NaN
  | PosInfinity | NegInfinity => PosInfinity
  | Finite q => Finite (Qabs q)
  end.

Definition Math_round (x : number) : number :=
  match x with
  | Finite q => Finite (inject_Z (Qfloor (q + (1 # 2))))
  | other => other
  end.

(** Truthiness of a value that is a number or [null]. *)
Definition truthy_number (v : option number) : bool :=
  match v with
  | None => false
  | Some NaN => false
  | Some (Finite q) => negb (Qeq_bool q 0)
  | Some _ => true
  end.

(** A JSX text child that is a string or [undefined]: the latter
    draws nothing. *)
Definition interpolateText (v : option string) : string :=
  match v with
  | Some s => s
  | None => EmptyString
  end.

Record TooltipView : Type := mkTooltipView {
  heading : string;
  fipsText : string;
  drugDeathsText : string;
  deathRateText : string;
  politicalLeanText : string;
  populationText : string
}.

Section Formatting.
(** [Number.prototype.toFixed] and [toLocaleString]. *)
Context (toFixed : number -> nat -> string)
        (toLocaleString : number -> string).

(** [v?.toFixed(1) || 'N/A'] *)
Definition fixedOrNA (v : option number) : string :=
  or_else (option_map (fun x => toFixed x 1) v) "N/A".

Definition leanText (v : option number) : string :=
  match v with
  | Some margin =>
      (if (margin >? lit 0)%js then "R+" else "D+")
      +:+ toFixed (Math_abs margin) 1 +:+ "%"
  | None => "N/A"
  end.

Definition tooltip (h : Hovered) : TooltipView :=
  {| heading := interpolateText (name h) +:+ " County";
     fipsText := interpolateText (fips (county h));
     drugDeathsText := fixedOrNA (DrugDeaths (county h));
     deathRateText := fixedOrNA (DrugDeathRate (county h));
     politicalLeanText := leanText (RepublicanMargin (county h));
     populationText :=
       if truthy_number (Population (county h))
       then match Population (county h) with
            | Some x => toLocaleString (Math_round x)
            | None => "N/A"
            end
       else "N/A" |}.

(** What the component returns, lines 214-351. *)
Inductive View : Type :=
  | LoadingView
  | MapView (selected : Metric) (title : string)
            (swatches : list (string * string)) (tip : option TooltipView).

Definition render (st : State) : View :=
  if loading st then LoadingView
  else MapView (metric st) (legendTitle (metric st)) (legend (metric st))
               (option_map tooltip (hoveredCounty st)).

End Formatting.
End CountyMapView.

(** ** Sample data *)

Module Samples.
Import JS CountyMapGL.

Definition sampleCounty (code : option string) (rate margin : option number)
    : CountyData :=
  {| fips := code; DrugDeaths := None; DrugDeathRate := rate;
     RepublicanMargin := margin; Population := None; SuicideDeaths := None;
     UnemploymentRate := None; PovertyRate := None; MedianIncome := None |}.

Definition autauga : CountyData :=
  sampleCounty (Some "01001") (Some (Finite (253 # 10))) (Some (lit 44)).
Definition kings : CountyData :=
  sampleCounty (Some "36047") (Some (lit 40)) (Some (Finite (- 553 # 10))).
Definition suppressed : CountyData :=
  sampleCounty (Some "48301") None None.
Definition zeroCode : CountyData :=
  sampleCounty (Some "0") (Some (lit 12)) None.
Definition noCode : CountyData :=
  sampleCounty None (Some (lit 12)) None.

Definition loaded : gmap string CountyData :=
  buildDataMap [autauga; zeroCode; kings; noCode; suppressed].

(** A mounted map whose county layer still has its initial colour. *)
Definition freshMap : MapGL :=
  {| countiesFill := Some (PaintColor "#94a3b8"); cursor := EmptyString |}.




(** A small server: one published year, a parser that accepts two
    documents, and a child process that prints an object. *)
Definition sampleCwd : string := "/app".

Definition samplePathJoin (parts : list string) : string :=
  String.concat "/" parts.

Definition sampleFiles : gmap string Years.node :=
  {[ "/app/public/data/years/2023.json" := Years.File "[]";
     "/app/public/data/years/2022.json" := Years.File "[{" ]}.

Definition sampleParse (text : string) : Handler.outcome Handler.json :=
  if String.eqb text "[]" then Handler.Return (Handler.JArr [])
  else if String.eqb text "{}" then Handler.Return (Handler.JObj [])
  else Handler.Throw "Unexpected end of JSON input".

Definition sampleChild (cmd : string) (timeout : Z)
    : Handler.outcome (string * string) :=
  Handler.Return ("{}" +:+ Compare.newline, EmptyString).

(** A query string whose [countyB] carries quote characters. *)
Definition sampleQuery : list (string * string) :=
  [ ("countyA", "01001"); ("countyB", "36047' + '"); ("year", "2021");
    ("controlPoverty", "true"); ("controlIncome", "True") ].

End Samples.

(** ** More sample data *)

Module MoreSamples.

(** A server whose boundary file is missing, beside its data folder. *)
Definition filesWithoutBoundaries : gmap string Years.node :=
  {[ "/app/public/data" := Years.Directory;
     "/app/public/data/years/2023.json" := Years.File "[]" ]}.

(** A server that has no data folder at all. *)
Definition filesWithoutData : gmap string Years.node :=
  {[ "/app/public" := Years.Directory ]}.

(** A server whose boundary file holds the document [null]. *)
Definition filesWithNull : gmap string Years.node :=
  {[ "/app/public/data" := Years.Directory;
     "/app/public/data/us_counties.geojson" := Years.File "null" ]}.

(** A server with a boundary file. *)
Definition filesWithBoundaries : gmap string Years.node :=
  {[ "/app/public/data" := Years.Directory;
     "/app/public/data/us_counties.geojson" := Years.File "{}" ]}.

Definition sampleListing (p : string) : list string :=
  if String.eqb p "/app/public/data" then ["county_data.json"; "years"] else [].

Definition parseWithNull (text : string) : Handler.outcome Handler.json :=
  if String.eqb text "null" then Handler.Return Handler.JNull
  else Samples.sampleParse text.

(** A child process that is killed at the time limit. *)
Definition killedChild (cmd : string) (timeout : Z)
    : Handler.outcome (string * string) :=
  Handler.Throw ("Command failed: " +:+ cmd).

(** A child process that prints a warning beside its answer. *)
Definition warningChild (cmd : string) (timeout : Z)
    : Handler.outcome (string * string) :=
  Handler.Return ("{}", "DeprecationWarning: pkg_resources").

(** A child process that prints text that is no JSON document. *)
Definition chattyChild (cmd : string) (timeout : Z)
    : Handler.outcome (string * string) :=
  Handler.Return ("Traceback (most recent call last):", EmptyString).

(** Stand-ins for the number formatters of the runtime. *)
Definition sampleToFixed (x : JS.number) (digits : nat) : string := "55.3".
Definition sampleToLocaleString (x : JS.number) : string := "2,736,074".

(** The tooltip shown for Kings County. *)
Definition kingsHovered : CountyMapGL.Hovered :=
  {| CountyMapGL.name := Some "Kings"; CountyMapGL.county := Samples.kings |}.

(** The state of a render that passes the guard of the layer effect. *)
Definition readyState : CountyMapGL.State :=
  {| CountyMapGL.countyData := Samples.loaded;
     CountyMapGL.countyDataProto := None;
     CountyMapGL.metric := CountyMapGL.drugDeaths;
     CountyMapGL.hoveredCounty := None;
     CountyMapGL.loading := false;
     CountyMapGL.map_current :=
       Some {| CountyMapGL.countiesFill := None;
               CountyMapGL.cursor := EmptyString |} |}.

End MoreSamples.

(** * Properties *)

(** ** Colour binning *)

Module ColourFacts.
Import JS CountyMapGL.

Lemma Qgtb_lt (x y : Q) : Qgtb x y = true <-> (y < x)%Q.
Proof.
  unfold Qgtb. rewrite negb_true_iff.
  split.
  - intros H. apply Qnot_le_lt. intros Hle.
    apply Qle_bool_iff in Hle. congruence.
  - intros H. destruct (Qle_bool x y) eqn:E; [|reflexivity].
    apply Qle_bool_iff in E. exfalso. exact (Qlt_not_le _ _ H E).
Qed.

Lemma Qgtb_le (x y : Q) : Qgtb x y = false <-> (x <= y)%Q.
Proof.
  unfold Qgtb. rewrite negb_false_iff. apply Qle_bool_iff.
Qed.

Lemma gt_finite (q : Q) (z : Z) :
  (Finite q >? lit z)%js = true <-> (inject_Z z < q)%Q.
Proof. apply Qgtb_lt. Qed.

Lemma gt_finite_false (q : Q) (z : Z) :
  (Finite q >? lit z)%js = false <-> (q <= inject_Z z)%Q.
Proof. apply Qgtb_le. Qed.

(** The cascade of the source is the generic ladder lookup. *)
Lemma getColorForValue_refines (v : option number) (b : bool) :
  getColorForValue v b = ColorForValue_spec v b.
Proof. destruct v as [x|], b; reflexivity. Qed.

Lemma getColorForValue_in_bins (x : number) (b : bool) :
  getColorForValue (Some x) b ∈ bin_colours b.
Proof.
  destruct b; simpl;
    repeat (match goal with |- context [if ?c then _ else _] => destruct c end);
    set_solver.
Qed.

Lemma bin_colours_NoDup (b : bool) : NoDup (bin_colours b).
Proof. destruct b; by apply (bool_decide_unpack _). Qed.



Lemma getColorForValue_bin_index (x : number) (b : bool) :
  ∃ i, bin_colours b !! i = Some (getColorForValue (Some x) b).
Proof.
  apply list_elem_of_lookup_1, getColorForValue_in_bins.
Qed.

(** Settles every comparison of the cascade on a finite value and
    closes the branches that contradict the bounds at hand. *)
Ltac settle_bins :=
  unfold getColorForValue;
  repeat match goal with
  | |- context [ (Finite ?q >? lit ?z)%js ] =>
      let E := fresh "E" in
      destruct (Finite q >? lit z)%js eqn:E;
      [ apply gt_finite in E | apply gt_finite_false in E ]
  end;
  try reflexivity; exfalso; unfold inject_Z in *; lra.

(** The five mortality bins on the finite values: each bound belongs to
    the bin below it. *)
Lemma mortality_bins (q : Q) :
  ((40 < q)%Q → getColorForValue (Some (Finite q)) false = "#7f1d1d")
  ∧ ((30 < q)%Q ∧ (q <= 40)%Q → getColorForValue (Some (Finite q)) false = "#dc2626")
  ∧ ((20 < q)%Q ∧ (q <= 30)%Q → getColorForValue (Some (Finite q)) false = "#f97316")
  ∧ ((10 < q)%Q ∧ (q <= 20)%Q → getColorForValue (Some (Finite q)) false = "#facc15")
  ∧ ((q <= 10)%Q → getColorForValue (Some (Finite q)) false = "#22c55e").
Proof.
  repeat apply conj; intros H;
    try match type of H with _ ∧ _ => destruct H as [H H'] end; settle_bins.
Qed.

(** The six political bins on the finite values. *)
Lemma political_bins (q : Q) :
  ((40 < q)%Q → getColorForValue (Some (Finite q)) true = "#7f1d1d")
  ∧ ((20 < q)%Q ∧ (q <= 40)%Q → getColorForValue (Some (Finite q)) true = "#dc2626")
  ∧ ((0 < q)%Q ∧ (q <= 20)%Q → getColorForValue (Some (Finite q)) true = "#fca5a5")
  ∧ ((-20 < q)%Q ∧ (q <= 0)%Q → getColorForValue (Some (Finite q)) true = "#93c5fd")
  ∧ ((-40 < q)%Q ∧ (q <= -20)%Q → getColorForValue (Some (Finite q)) true = "#2563eb")
  ∧ ((q <= -40)%Q → getColorForValue (Some (Finite q)) true = "#1e3a8a").
Proof.
  repeat apply conj; intros H;
    try match type of H with _ ∧ _ => destruct H as [H H'] end; settle_bins.
Qed.

(** The non-finite numbers: [NaN] fails every test and lands in the
    last bin of either ladder, as does [-Infinity]; [Infinity] passes
    the first test. *)
Lemma non_finite_bins (b : bool) :
  getColorForValue (Some NaN) b = (if b then "#1e3a8a" else "#22c55e")
  ∧ getColorForValue (Some NegInfinity) b = (if b then "#1e3a8a" else "#22c55e")
  ∧ getColorForValue (Some PosInfinity) b = "#7f1d1d".
Proof. by destruct b. Qed.

(** C1, as the code has it: in the mortality ladder every bound is
    tested with a strict greater-than, so a value lands in the top bin
    exactly when it exceeds 40, and the values 40, 30, 20 and 10 each
    land in the bin below the bound (40 in the 30-40 bin). *)
Theorem mortality_bounds_strict :
  (∀ v : number,
     getColorForValue (Some v) false = "#7f1d1d" ↔ (v >? lit 40)%js = true)
  ∧ getColorForValue (Some (lit 40)) false = "#dc2626"
  ∧ getColorForValue (Some (lit 30)) false = "#f97316"
  ∧ getColorForValue (Some (lit 20)) false = "#facc15"
  ∧ getColorForValue (Some (lit 10)) false = "#22c55e".
Proof.
  split; [|by vm_compute].
  intros v. unfold getColorForValue.
  destruct (v >? lit 40)%js; [done|].
  repeat match goal with
         | |- context [if ?c then _ else _] => destruct c
         end; by split.
Qed.

(** C1, as stated, fails: a rate of exactly 40 is not coloured as the
    top bin but as the 30-40 bin. *)
Lemma rate_40_not_in_top_bin :
  getColorForValue (Some (lit 40)) false ≠ "#7f1d1d"
  ∧ getColorForValue (Some (lit 40)) false = "#dc2626".
Proof. by vm_compute. Qed.

(** C4: [getColorForValue] is a total function; [null] has the one
    neutral colour; a number is looked up in the mortality ladder
    (bounds 40, 30, 20, 10, five bins) or in the political ladder
    (bounds 40, 20, 0, -20, -40, six bins), first strict match from
    the top; the colour found names exactly one bin of that ladder. *)
Theorem getColorForValue_total :
  (∀ isPolitic, getColorForValue None isPolitic = neutral_colour)
  ∧ (∀ x, getColorForValue (Some x) false
          = ladder_lookup
              [ (lit 40, "#7f1d1d"); (lit 30, "#dc2626");
                (lit 20, "#f97316"); (lit 10, "#facc15") ] "#22c55e" x)
  ∧ (∀ x, getColorForValue (Some x) true
          = ladder_lookup
              [ (lit 40, "#7f1d1d"); (lit 20, "#dc2626"); (lit 0, "#fca5a5");
                (lit (-20), "#93c5fd"); (lit (-40), "#2563eb") ] "#1e3a8a" x)
  ∧ length (bin_colours false) = 5%nat
  ∧ length (bin_colours true) = 6%nat
  ∧ (∀ x isPolitic,
       ∃ i, bin_colours isPolitic !! i = Some (getColorForValue (Some x) isPolitic)
            ∧ ∀ j, bin_colours isPolitic !! j
                     = Some (getColorForValue (Some x) isPolitic) → j = i).
Proof.
  split; [by intros []|].
  split; [done|]. split; [done|]. split; [done|]. split; [done|].
  intros x b.
  destruct (getColorForValue_bin_index x b) as [i Hi].
  exists i. split; [done|].
  intros j Hj. by eapply NoDup_lookup; [apply bin_colours_NoDup|..].
Qed.

(** The rate 25.5 is in the third mortality bin and in no other. *)
Lemma getColorForValue_total_witness :
  ∃ i, bin_colours false !! i = Some "#f97316"
       ∧ ∀ j, bin_colours false !! j = Some "#f97316" → j = i.
Proof.
  exact (proj2 (proj2 (proj2 (proj2 (proj2 getColorForValue_total))))
           (Finite (51 # 2)) false).
Defined.

End ColourFacts.

(** ** The county map: loader, fill expression, hover *)

Module MapFacts.
Import JS CountyMapGL.

(** *** Loader *)

Lemma truthy_Some (o : option string) :
  truthy o = true ↔ ∃ s, o = Some s ∧ s ≠ EmptyString.
Proof.
  destruct o as [s|]; simpl.
  - rewrite negb_true_iff. split.
    + intros H. exists s. split; [done|]. intros ->. by rewrite String.eqb_refl in H.
    + intros (s' & [= <-] & Hne). by apply String.eqb_neq.
  - split; [done|]. by intros (? & ? & ?).
Qed.

Lemma storeCounty_dropped (m : gmap string CountyData) (c : CountyData) :
  fips c = None ∨ fips c = Some EmptyString ∨ fips c = Some "0" →
  storeCounty m c = m.
Proof.
  unfold storeCounty. by intros [-> | [-> | ->]]; simpl.
Qed.

Lemma storeCounty_kept (m : gmap string CountyData) (c : CountyData) (k : string) :
  fips c = Some k → k ≠ EmptyString → k ≠ "0" → k ≠ "__proto__" →
  storeCounty m c = <[k := c]> m.
Proof.
  intros Hf Hne H0 Hp. unfold storeCounty. rewrite Hf. simpl.
  apply String.eqb_neq in Hne, H0, Hp. by rewrite Hne, H0, Hp.
Qed.

Lemma storeCounty_proto (m : gmap string CountyData) (c : CountyData) :
  fips c = Some "__proto__" → storeCounty m c = m.
Proof. intros Hf. unfold storeCounty. by rewrite Hf. Qed.

Lemma storeCounty_cases (m : gmap string CountyData) (c : CountyData) :
  storeCounty m c = m
  ∨ ∃ k, fips c = Some k ∧ k ≠ EmptyString ∧ k ≠ "0"
         ∧ storeCounty m c = <[k := c]> m.
Proof.
  unfold storeCounty.
  destruct (truthy (fips c)) eqn:Ht; [|by left].
  apply truthy_Some in Ht as (k & Hk & Hne). rewrite Hk. simpl.
  destruct (String.eqb k "0") eqn:E0; [by left|]. simpl.
  destruct (String.eqb k "__proto__"); [by left|].
  right. exists k. by apply String.eqb_neq in E0.
Qed.

Lemma storeCounty_keys_ok (m : gmap string CountyData) (c : CountyData) :
  keys_ok m → keys_ok (storeCounty m c).
Proof.
  intros Hm.
  destruct (storeCounty_cases m c) as [-> | (k & Hk & Hne & H0 & ->)]; [done|].
  intros k' d. rewrite lookup_insert. case_decide as Hkk.
  - intros [= <-]. by subst k'.
  - apply Hm.
Qed.

Lemma foldl_storeCounty_keys_ok (data : list CountyData) (m : gmap string CountyData) :
  keys_ok m → keys_ok (foldl storeCounty m data).
Proof.
  revert m. induction data as [|c data IH]; intros m Hm; simpl; [done|].
  by apply IH, storeCounty_keys_ok.
Qed.

Lemma foldl_storeCounty_from (data : list CountyData) (m : gmap string CountyData)
    (k : string) (d : CountyData) :
  foldl storeCounty m data !! k = Some d → m !! k = Some d ∨ d ∈ data.
Proof.
  revert m. induction data as [|c data IH]; intros m; simpl; [by left|].
  intros H. destruct (IH _ H) as [Hm | Hin]; [|right; by constructor].
  destruct (storeCounty_cases m c) as [E | (k' & _ & _ & _ & E)];
    rewrite E in Hm; [by left|].
  rewrite lookup_insert in Hm. case_decide.
  - injection Hm as <-. right. by constructor.
  - by left.
Qed.

Lemma keys_ok_empty : keys_ok ∅.
Proof. intros k d. by rewrite lookup_empty. Qed.

Lemma buildDataMap_keys_ok (data : list CountyData) : keys_ok (buildDataMap data).
Proof. apply foldl_storeCounty_keys_ok, keys_ok_empty. Qed.

Lemma buildDataMap_drop (pre post : list CountyData) (c : CountyData) :
  fips c = None ∨ fips c = Some EmptyString ∨ fips c = Some "0" →
  buildDataMap (pre ++ c :: post) = buildDataMap (pre ++ post).
Proof.
  intros H. unfold buildDataMap. rewrite !foldl_app. simpl.
  by rewrite storeCounty_dropped.
Qed.

(** The loader is not vacuous: the last record of the array is found
    under its code when the test lets it through. *)
Lemma buildDataMap_last (pre : list CountyData) (c : CountyData) (k : string) :
  fips c = Some k → k ≠ EmptyString → k ≠ "0" → k ≠ "__proto__" →
  buildDataMap (pre ++ [c]) !! k = Some c.
Proof.
  intros Hf Hne H0 Hp. unfold buildDataMap. rewrite foldl_app. simpl.
  rewrite (storeCounty_kept _ c k) by done. apply lookup_insert_eq.
Qed.

(** *** Transition system: [countyData] is written by the loader only *)

Lemma updateMapColors_countyData (st : State) :
  countyData (updateMapColors st) = countyData st.
Proof.
  unfold updateMapColors.
  destruct (map_current st) as [mp|]; [|done]. by destruct (countiesFill mp).
Qed.

Lemma handleMouseMove_countyData (features : list Feature) (st : State) :
  countyData (handleMouseMove features st) = countyData st.
Proof.
  unfold handleMouseMove.
  destruct (map_current st); [|done].
  destruct features as [|f ?]; [done|].
  by destruct (getProperty _ _ _) as [d|[]|].
Qed.

Lemma step_countyData (st : State) (e : Event) :
  countyData (step st e) = countyData st
  ∨ ∃ data, e = DataFetched data ∧ countyData (step st e) = buildDataMap data.
Proof.
  destruct e as [data|m|features| |mp]; simpl.
  - right. exists data. by rewrite updateMapColors_countyData.
  - left. by rewrite updateMapColors_countyData.
  - left. apply handleMouseMove_countyData.
  - by left.
  - by left.
Qed.

Lemma foldl_step_keys_ok (events : list Event) (st : State) :
  keys_ok (countyData st) → keys_ok (countyData (foldl step st events)).
Proof.
  revert st. induction events as [|e events IH]; intros st Hst; simpl; [done|].
  apply IH.
  destruct (step_countyData st e) as [-> | (data & _ & ->)]; [done|].
  apply buildDataMap_keys_ok.
Qed.

Lemma run_keys_ok (events : list Event) : keys_ok (countyData (run events)).
Proof. apply foldl_step_keys_ok, keys_ok_empty. Qed.

(** C9: a record whose [fips] is absent, empty or ["0"] leaves no
    trace in the map built by the loader; every key of that map is a
    non-empty code other than ["0"], carried by a record of the fetched
    array; and this holds of [countyData] in every state the component
    reaches. *)
Theorem loader_keys_invariant :
  (∀ pre post c,
     fips c = None ∨ fips c = Some EmptyString ∨ fips c = Some "0" →
     buildDataMap (pre ++ c :: post) = buildDataMap (pre ++ post))
  ∧ (∀ data k d,
       buildDataMap data !! k = Some d →
       k ≠ EmptyString ∧ k ≠ "0" ∧ fips d = Some k ∧ d ∈ data)
  ∧ (∀ events k d,
       countyData (run events) !! k = Some d → k ≠ EmptyString ∧ k ≠ "0").
Proof.
  split; [exact buildDataMap_drop|]. split.
  - intros data k d H.
    destruct (buildDataMap_keys_ok data k d H) as (? & ? & ?).
    repeat split; try done.
    destruct (foldl_storeCounty_from data ∅ k d H) as [He|]; [|done].
    by rewrite lookup_empty in He.
  - intros events k d H.
    destruct (run_keys_ok events k d H) as (? & ? & ?). done.
Qed.

Lemma loader_keys_invariant_witness :
  buildDataMap ([Samples.autauga] ++ Samples.zeroCode :: [Samples.kings])
    = buildDataMap ([Samples.autauga] ++ [Samples.kings])
  ∧ ("01001" ≠ EmptyString ∧ "01001" ≠ "0"
     ∧ fips Samples.autauga = Some "01001"
     ∧ Samples.autauga ∈ [Samples.noCode; Samples.autauga])
  ∧ ("36047" ≠ EmptyString ∧ "36047" ≠ "0").
Proof.
  destruct loader_keys_invariant as (Hdrop & Hkeys & Hinv).
  split; [apply Hdrop; by right; right|]. split.
  - apply (Hkeys [Samples.noCode; Samples.autauga] "01001" Samples.autauga).
    by vm_compute.
  - apply (Hinv [MapRef (Some Samples.freshMap);
                 DataFetched [Samples.zeroCode; Samples.kings];
                 MetricSelected republicanMargin; MouseLeave]
                "36047" Samples.kings).
    by vm_compute.
Defined.

(** *** Fill expression *)

Lemma foldl_pushEntry (m : Metric) (l : list (string * CountyData)) (acc : list value) :
  foldl (pushEntry m) acc l
  = acc ++ (l ≫= λ e, [VStr e.1; VStr (entryColor m e.2)]).
Proof.
  revert acc. induction l as [|e l IH]; intros acc; simpl.
  - by rewrite app_nil_r.
  - rewrite IH. unfold pushEntry, entryColor. by rewrite <- app_assoc.
Qed.

Lemma parse_branches_cons (label : string) (output : value) (rest : list value) :
  parse_branches (VStr label :: output :: rest)
  = match parse_branches rest with
    | Some (branches, fallback) => Some ((label, output) :: branches, fallback)
    | None => None
    end.
Proof. reflexivity. Qed.

Lemma parse_branches_pairs (pairs : list (string * string)) (fallback : value) :
  parse_branches ((pairs ≫= λ p, [VStr p.1; VStr p.2]) ++ [fallback])
  = Some (prod_map id VStr <$> pairs, fallback).
Proof.
  induction pairs as [|[k c] pairs IH]; [by destruct fallback|].
  change (parse_branches
            (VStr k :: VStr c
               :: ((pairs ≫= λ p, [VStr p.1; VStr p.2]) ++ [fallback]))
          = Some (prod_map id VStr <$> (k, c) :: pairs, fallback)).
  rewrite parse_branches_cons, IH. reflexivity.
Qed.

Lemma select_branch_miss (branches : list (string * value)) (fallback : value)
    (input : option string) :
  (∀ k, input = Some k → k ∉ branches.*1) →
  select_branch branches fallback input = fallback.
Proof.
  induction branches as [|[label output] branches IH]; intros H; simpl; [done|].
  destruct input as [k|]; simpl.
  - destruct (String.eqb_spec k label) as [->|Hne].
    + exfalso. apply (H label eq_refl). simpl. by left.
    + apply IH. intros k' [= <-] Hin. apply (H k eq_refl). simpl. by right.
  - apply IH. by intros k [=].
Qed.

Lemma select_branch_hit (branches : list (string * value)) (fallback : value)
    (k : string) (v : value) :
  NoDup branches.*1 → (k, v) ∈ branches →
  select_branch branches fallback (Some k) = v.
Proof.
  induction branches as [|[label output] branches IH]; intros Hnd Hin; simpl.
  - by apply elem_of_nil in Hin.
  - simpl in Hnd. apply NoDup_cons in Hnd as [Hnotin Hnd].
    apply elem_of_cons in Hin as [[= -> ->] | Hin].
    + by rewrite String.eqb_refl.
    + destruct (String.eqb_spec k label) as [->|Hne]; [|by apply IH].
      exfalso. apply Hnotin.
      apply list_elem_of_fmap. by exists (label, v).
Qed.

Lemma bind_entries (m : Metric) (l : list (string * CountyData)) :
  (l ≫= λ e, [VStr e.1; VStr (entryColor m e.2)])
  = (((λ e, (e.1, entryColor m e.2)) <$> l) ≫= λ p, [VStr p.1; VStr p.2]).
Proof.
  induction l as [|e l IH]; [done|].
  change ([VStr e.1; VStr (entryColor m e.2)]
            ++ (l ≫= λ e, [VStr e.1; VStr (entryColor m e.2)])
          = [VStr e.1; VStr (entryColor m e.2)]
            ++ (((λ e, (e.1, entryColor m e.2)) <$> l)
                  ≫= λ p, [VStr p.1; VStr p.2])).
  by rewrite IH.
Qed.

(** The label/colour pairs of the expression, one per stored county. *)
Lemma fillExpression_shape (cd : gmap string CountyData) (m : Metric) :
  fillExpression cd m
  = [VStr "match"; VArr ["get"; "GEOID"]]
    ++ (((λ e, (e.1, entryColor m e.2)) <$> map_to_list cd)
          ≫= λ p, [VStr p.1; VStr p.2])
    ++ [VStr "#e5e7eb"].
Proof.
  unfold fillExpression. rewrite foldl_pushEntry, bind_entries.
  by rewrite <- app_assoc.
Qed.

Lemma eval_match_pairs (pairs : list (string * string)) (fallback : value)
    (input : option string) :
  pairs ≠ [] → NoDup pairs.*1 →
  eval_match ([VStr "match"; VArr ["get"; "GEOID"]]
                ++ (pairs ≫= λ p, [VStr p.1; VStr p.2]) ++ [fallback]) input
  = Some (select_branch (prod_map id VStr <$> pairs) fallback input).
Proof.
  intros Hne Hnd.
  change (match parse_branches ((pairs ≫= λ p, [VStr p.1; VStr p.2]) ++ [fallback]) with
          | Some (b :: bs, fb) =>
              if bool_decide (NoDup ((b :: bs).*1))
              then Some (select_branch (b :: bs) fb input)
              else None
          | _ => None
          end
          = Some (select_branch (prod_map id VStr <$> pairs) fallback input)).
  rewrite parse_branches_pairs.
  destruct pairs as [|p pairs]; [done|].
  change (prod_map id VStr <$> p :: pairs)
    with (prod_map id VStr p :: (prod_map id VStr <$> pairs)).
  cbv beta iota. case_bool_decide as Hdec; [done|].
  exfalso. apply Hdec.
  change (NoDup ((prod_map id VStr <$> p :: pairs).*1)).
  rewrite <- list_fmap_compose. exact Hnd.
Qed.

Lemma map_to_list_nonempty (cd : gmap string CountyData) :
  cd ≠ ∅ → map_to_list cd ≠ [].
Proof. intros Hne Hnil. by apply Hne, map_to_list_empty_iff. Qed.

Lemma eval_fillExpression (cd : gmap string CountyData) (m : Metric)
    (input : option string) :
  cd ≠ ∅ →
  eval_match (fillExpression cd m) input
  = Some (select_branch
            (prod_map id VStr <$> ((λ e, (e.1, entryColor m e.2)) <$> map_to_list cd))
            (VStr "#e5e7eb") input).
Proof.
  intros Hne. rewrite fillExpression_shape.
  apply eval_match_pairs.
  - intros Hnil. apply fmap_nil_inv in Hnil. by apply (map_to_list_nonempty cd).
  - rewrite <- list_fmap_compose. apply NoDup_fst_map_to_list.
Qed.

(** C8: the expression is the [match] header, one label/colour pair
    for each stored county (labels pairwise different, the colour that
    of [getColorForValue] on the selected metric) and one trailing
    default colour; [updateMapColors] installs it on the county layer;
    evaluated on a feature, it gives a stored county its colour and,
    once a data set is loaded, any feature without a stored county the
    default colour, and it is never rejected. *)
Theorem fill_expression_default (cd : gmap string CountyData) (m : Metric) :
  (∃ pairs : list (string * string),
     fillExpression cd m
     = [VStr "match"; VArr ["get"; "GEOID"]]
       ++ (pairs ≫= λ p, [VStr p.1; VStr p.2]) ++ [VStr "#e5e7eb"]
     ∧ NoDup pairs.*1
     ∧ length pairs = size cd
     ∧ ∀ code colour,
         (code, colour) ∈ pairs
         ↔ ∃ data, cd !! code = Some data
                   ∧ colour = getColorForValue (metricValue m data)
                                               (isRepublicanMargin m))
  ∧ (∀ st mp old,
       countyData st = cd → metric st = m →
       map_current st = Some mp → countiesFill mp = Some old →
       map_current (updateMapColors st)
       = Some {| countiesFill := Some (PaintExpression (fillExpression cd m));
                 cursor := cursor mp |})
  ∧ (∀ code data,
       cd !! code = Some data →
       eval_match (fillExpression cd m) (Some code)
       = Some (VStr (getColorForValue (metricValue m data) (isRepublicanMargin m))))
  ∧ (cd ≠ ∅ →
     ∀ geoid,
       (∀ code, geoid = Some code → cd !! code = None) →
       eval_match (fillExpression cd m) geoid = Some (VStr "#e5e7eb"))
  ∧ (cd ≠ ∅ → ∀ geoid, is_Some (eval_match (fillExpression cd m) geoid)).
Proof.
  repeat apply conj.
  - exists ((λ e, (e.1, entryColor m e.2)) <$> map_to_list cd).
    split; [apply fillExpression_shape|]. split.
    { rewrite <- list_fmap_compose. apply NoDup_fst_map_to_list. }
    split.
    { rewrite length_fmap. apply length_map_to_list. }
    intros code colour. rewrite list_elem_of_fmap. split.
    + intros ([k d] & [= -> ->] & Hin). exists d.
      split; [by apply elem_of_map_to_list|done].
    + intros (d & Hd & ->). exists (code, d).
      split; [done|by apply elem_of_map_to_list].
  - intros st mp old <- <- Hmp Hold. unfold updateMapColors.
    by rewrite Hmp, Hold.
  - intros code data Hd.
    assert (cd ≠ ∅) as Hne by (intros ->; by rewrite lookup_empty in Hd).
    rewrite eval_fillExpression by done. f_equal.
    apply select_branch_hit.
    + rewrite <- !list_fmap_compose. apply NoDup_fst_map_to_list.
    + apply list_elem_of_fmap. exists (code, entryColor m data). split; [done|].
      apply list_elem_of_fmap. exists (code, data).
      split; [done|by apply elem_of_map_to_list].
  - intros Hne geoid Hmiss.
    rewrite eval_fillExpression by done. f_equal.
    apply select_branch_miss. intros k -> Hin.
    rewrite <- !list_fmap_compose in Hin.
    apply list_elem_of_fmap in Hin as ([k' d] & Hk & Hin). simpl in Hk. subst k'.
    apply elem_of_map_to_list in Hin. rewrite (Hmiss k eq_refl) in Hin. done.
  - intros Hne geoid. rewrite eval_fillExpression by done. by eexists.
Qed.

(** Without any stored county the array is the header followed by the
    default colour alone, which the library does not accept as a
    [match]; the component creates the county layer, and so reaches
    [setPaintProperty], only with a non-empty [countyData] (line 81). *)
Lemma fillExpression_empty (m : Metric) (geoid : option string) :
  fillExpression ∅ m = [VStr "match"; VArr ["get"; "GEOID"]; VStr "#e5e7eb"]
  ∧ eval_match (fillExpression ∅ m) geoid = None.
Proof.
  unfold fillExpression. by rewrite map_to_list_empty.
Qed.

Lemma sample_loaded_nonempty : Samples.loaded ≠ ∅.
Proof.
  intros H. apply (f_equal (λ cd : gmap string CountyData, cd !! "01001")) in H.
  by vm_compute in H.
Qed.

(** A county polygon whose code is not in the data is drawn in the
    default colour. *)
Lemma fill_expression_default_witness :
  eval_match (fillExpression Samples.loaded drugDeaths) (Some "02270")
  = Some (VStr "#e5e7eb").
Proof.
  apply (proj1 (proj2 (proj2 (proj2
           (fill_expression_default Samples.loaded drugDeaths))))).
  - exact sample_loaded_nonempty.
  - intros code [= <-]. by vm_compute.
Defined.

(** *** Hover *)

Lemma setHovered_hovered (h : option Hovered) (c : string) (st : State) :
  hoveredCounty (setHovered h c st) = h.
Proof. done. Qed.





Lemma getProperty_own (own : gmap string CountyData)
    (proto : option CountyData) (key : string) (data : CountyData) :
  own !! key = Some data → getProperty own proto key = PRecord data.
Proof. intros Hown. unfold getProperty. by rewrite Hown. Qed.






End MapFacts.

(** ** Route handlers *)

Module RouteFacts.
Import JS Handler.

Lemma get_absent_or_empty (o : option string) :
  o = None ∨ o = Some EmptyString → truthy o = false.
Proof. by intros [-> | ->]. Qed.

Lemma truthy_nonempty (s : string) : s ≠ EmptyString → truthy (Some s) = true.
Proof. intros H. simpl. apply String.eqb_neq in H. by rewrite H. Qed.

Lemma strict_eq_true (o : option string) (s : string) :
  strict_eq o s = true ↔ o = Some s.
Proof.
  destruct o as [t|]; simpl; [|done].
  rewrite String.eqb_eq. split; [by intros ->|by intros [= ->]].
Qed.

Section Years.
Context (cwd : string) (path_join : list string → string)
        (files : gmap string Years.node)
        (JSON_parse : string → outcome json).

Let yearsGET := Years.GET cwd path_join files JSON_parse.
Let yearFile (year : string) : string :=
  path_join [cwd; "public"; "data"; "years"; year +:+ ".json"].

(** C6: where no file is stored for the year the handler answers
    404 with [{error: "Year <year> not found"}] and does nothing
    else; where the file is there but [JSON.parse] throws, it
    answers 500; and it returns a response, never an exception,
    whatever the year. *)
Theorem year_not_found (year : string) :
  (files !! yearFile year = None →
   ∀ log, yearsGET year log
          = (Return {| status := 404;
                       body := JObj [("error",
                                      JStr ("Year " +:+ year +:+ " not found"))];
                       headers := [] |},
             log))
  ∧ (∀ contents message,
       files !! yearFile year = Some (Years.File contents) →
       JSON_parse contents = Throw message →
       ∀ log, yearsGET year log
              = (Return {| status := 500;
                           body := JObj [("error", JStr "Failed to load year data")];
                           headers := [] |},
                 log ++ [ConsoleError "Error loading year data:" message]))
  ∧ (∀ log, ∃ response log', yearsGET year log = (Return response, log')).
Proof.
  subst yearsGET yearFile. unfold Years.GET, Years.existsSync, Years.readFileSync,
    try_catch, bind, ret, throw, lift, emit. simpl.
  repeat apply conj.
  - intros H log. by rewrite H.
  - intros contents message H Hparse log. rewrite H. simpl. by rewrite Hparse.
  - intros log.
    destruct (files !! _) as [[contents|]|]; simpl; eauto.
    destruct (JSON_parse contents); eauto.
Qed.

End Years.

Lemma year_not_found_witness :
  Years.GET Samples.sampleCwd Samples.samplePathJoin Samples.sampleFiles
            Samples.sampleParse "1899" []
  = (Return {| status := 404;
               body := JObj [("error", JStr "Year 1899 not found")];
               headers := [] |}, [])
  ∧ Years.GET Samples.sampleCwd Samples.samplePathJoin Samples.sampleFiles
              Samples.sampleParse "2022" []
    = (Return {| status := 500;
                 body := JObj [("error", JStr "Failed to load year data")];
                 headers := [] |},
       [ConsoleError "Error loading year data:" "Unexpected end of JSON input"]).
Proof.
  split.
  - apply (proj1 (year_not_found Samples.sampleCwd Samples.samplePathJoin
                    Samples.sampleFiles Samples.sampleParse "1899")).
    by vm_compute.
  - refine (proj1 (proj2 (year_not_found Samples.sampleCwd Samples.samplePathJoin
                     Samples.sampleFiles Samples.sampleParse "2022"))
                  "[{" "Unexpected end of JSON input" _ _ []);
      by vm_compute.
Defined.

Section Compare.
Context (cwd : string)
        (JSON_parse : string → outcome json)
        (child : string → Z → outcome (string * string)).

Let compareGET := Compare.GET cwd JSON_parse child.

(** C2: a request whose [countyA] or [countyB] is absent or empty
    is answered 400 and leaves the effect log as it was: no process
    is spawned. *)
Theorem compare_missing_county (searchParams : list (string * string)) :
  get searchParams "countyA" = None
  ∨ get searchParams "countyA" = Some EmptyString
  ∨ get searchParams "countyB" = None
  ∨ get searchParams "countyB" = Some EmptyString →
  ∀ log,
    compareGET searchParams log
    = (Return {| status := 400;
                 body := JObj [("error",
                                JStr "Missing required parameters: countyA, countyB")];
                 headers := [] |},
       log)
    ∧ spawned (compareGET searchParams log).2 = spawned log.
Proof.
  intros H log.
  assert (negb (truthy (get searchParams "countyA"))
          || negb (truthy (get searchParams "countyB")) = true) as Hguard.
  { destruct H as [H | [H | [H | H]]]; rewrite H; simpl;
      by rewrite ?orb_true_r. }
  assert (compareGET searchParams log
          = (Return {| status := 400;
                       body := JObj [("error",
                                      JStr "Missing required parameters: countyA, countyB")];
                       headers := [] |}, log)) as Heq.
  { subst compareGET. unfold Compare.GET, try_catch. simpl. by rewrite Hguard. }
  split; [exact Heq|]. by rewrite Heq.
Qed.

(** The handler once validation has passed: the process is spawned
    on the command built from the parameters, with the 10 s limit. *)
Lemma compare_valid_spawns (searchParams : list (string * string)) (a b : string) :
  get searchParams "countyA" = Some a → a ≠ EmptyString →
  get searchParams "countyB" = Some b → b ≠ EmptyString →
  ∀ log,
    spawned (compareGET searchParams log).2
    = spawned log ++ [(Compare.command cwd (Compare.readParams searchParams), 10000%Z)].
Proof.
  intros Ha Hane Hb Hbne log.
  subst compareGET. unfold Compare.GET, try_catch, Compare.execAsync. simpl.
  rewrite Ha, Hb, (truthy_nonempty a), (truthy_nonempty b) by done. simpl.
  unfold bind, emit, lift, when, ret. simpl.
  unfold spawned.
  destruct (child _ _) as [[stdout stderr]|message]; simpl.
  - destruct (negb (String.eqb stderr EmptyString) && _); simpl;
      destruct (JSON_parse _); simpl;
      rewrite ?omap_app; simpl; by rewrite ?app_nil_r.
  - rewrite !omap_app. simpl. by rewrite app_nil_r.
Qed.

(** C5: once validation has passed, one process is spawned, through
    a single command string, and the values of [countyA], [countyB]
    and [year] stand in that string as they were received, between
    fixed pieces of text. *)
Theorem compare_command_interpolated (searchParams : list (string * string))
    (a b : string) :
  get searchParams "countyA" = Some a → a ≠ EmptyString →
  get searchParams "countyB" = Some b → b ≠ EmptyString →
  ∀ log,
    spawned (compareGET searchParams log).2
    = spawned log
      ++ [("python3 -c " +:+ Compare.quote +:+ Compare.newline +:+
           "import sys" +:+ Compare.newline +:+
           "sys.path.insert(0, '" +:+ cwd +:+ "')" +:+ Compare.newline +:+
           "from statistical_controls import adjust_for_confounders"
             +:+ Compare.newline +:+
           "import json" +:+ Compare.newline +:+
           "result = adjust_for_confounders(" +:+ Compare.newline +:+
           "    '" +:+ a +:+ "'," +:+ Compare.newline +:+
           "    '" +:+ b +:+ "'," +:+ Compare.newline +:+
           "    " +:+ or_else (get searchParams "year") "2023" +:+ ","
             +:+ Compare.newline +:+
           "    " +:+ Compare.pyBool
                       (Compare.controlPoverty (Compare.readParams searchParams))
             +:+ "," +:+ Compare.newline +:+
           "    " +:+ Compare.pyBool
                       (Compare.controlIncome (Compare.readParams searchParams))
             +:+ "," +:+ Compare.newline +:+
           "    " +:+ Compare.pyBool
                       (Compare.controlUrbanRural (Compare.readParams searchParams))
             +:+ Compare.newline +:+
           ")" +:+ Compare.newline +:+
           "print(json.dumps(result))" +:+ Compare.newline +:+ Compare.quote,
           10000%Z)].
Proof.
  intros Ha Hane Hb Hbne log.
  rewrite (compare_valid_spawns searchParams a b) by done.
  unfold Compare.command, Compare.readParams. simpl. by rewrite Ha, Hb.
Qed.

(** X1: when the child process fails (non-zero exit, kill at the time
    limit, spawn failure) the handler answers 500 and passes the
    message of the error on as [details]. *)
Lemma compare_child_failure (searchParams : list (string * string))
    (a b message : string) :
  get searchParams "countyA" = Some a → a ≠ EmptyString →
  get searchParams "countyB" = Some b → b ≠ EmptyString →
  child (Compare.command cwd (Compare.readParams searchParams)) 10000%Z
    = Throw message →
  (compareGET searchParams []).1
  = Return {| status := 500;
              body := JObj [("error", JStr "Failed to compute adjusted comparison");
                            ("details", JStr message)];
              headers := [] |}.
Proof.
  intros Ha Hane Hb Hbne Hchild.
  subst compareGET. unfold Compare.GET, Compare.execAsync. cbv zeta.
  rewrite Hchild. unfold try_catch, bind, emit, lift. simpl.
  by rewrite Ha, Hb, (truthy_nonempty a), (truthy_nonempty b).
Qed.

(** X2: when the child process answers but its trimmed output is not a
    JSON document, the handler answers 500 with the message of the
    parse error as [details]. *)
Lemma compare_malformed_output (searchParams : list (string * string))
    (a b stdout stderr message : string) :
  get searchParams "countyA" = Some a → a ≠ EmptyString →
  get searchParams "countyB" = Some b → b ≠ EmptyString →
  child (Compare.command cwd (Compare.readParams searchParams)) 10000%Z
    = Return (stdout, stderr) →
  JSON_parse (trim stdout) = Throw message →
  (compareGET searchParams []).1
  = Return {| status := 500;
              body := JObj [("error", JStr "Failed to compute adjusted comparison");
                            ("details", JStr message)];
              headers := [] |}.
Proof.
  intros Ha Hane Hb Hbne Hchild Hparse.
  subst compareGET. unfold Compare.GET, Compare.execAsync. cbv zeta.
  rewrite Hchild. unfold try_catch, bind, emit, lift, when, ret. simpl.
  rewrite Ha, Hb, (truthy_nonempty a), (truthy_nonempty b) by done. simpl.
  destruct (negb (String.eqb stderr EmptyString) && _); simpl;
    by rewrite Hparse.
Qed.

End Compare.

Lemma compare_missing_county_witness :
  Compare.GET Samples.sampleCwd Samples.sampleParse Samples.sampleChild
              [("countyA", "01001"); ("countyB", EmptyString)] []
  = (Return {| status := 400;
               body := JObj [("error",
                              JStr "Missing required parameters: countyA, countyB")];
               headers := [] |}, [])
  ∧ spawned (Compare.GET Samples.sampleCwd Samples.sampleParse Samples.sampleChild
                         [("countyA", "01001"); ("countyB", EmptyString)] []).2
    = [].
Proof.
  apply (compare_missing_county Samples.sampleCwd Samples.sampleParse
           Samples.sampleChild [("countyA", "01001"); ("countyB", EmptyString)]).
  right. right. right. by vm_compute.
Defined.

(** The quote characters of [countyB] reach the command unchanged. *)
Lemma compare_command_interpolated_witness :
  ∃ cmd,
    spawned (Compare.GET Samples.sampleCwd Samples.sampleParse Samples.sampleChild
                         Samples.sampleQuery []).2
    = [(cmd, 10000%Z)]
    ∧ includes cmd ("    '36047' + ''," +:+ Compare.newline +:+ "    2021,") = true.
Proof.
  eexists. split.
  - refine (compare_command_interpolated Samples.sampleCwd Samples.sampleParse
              Samples.sampleChild Samples.sampleQuery "01001" "36047' + '"
              _ _ _ _ []);
      by vm_compute.
  - by vm_compute.
Defined.

(** C7: each control flag is true exactly when the query string holds
    the text [true] under its name; a missing flag and any other text,
    [True] included, give false. *)
Theorem control_flags_exact (searchParams : list (string * string)) :
  (Compare.controlPoverty (Compare.readParams searchParams) = true
   ↔ get searchParams "controlPoverty" = Some "true")
  ∧ (Compare.controlIncome (Compare.readParams searchParams) = true
     ↔ get searchParams "controlIncome" = Some "true")
  ∧ (Compare.controlUrbanRural (Compare.readParams searchParams) = true
     ↔ get searchParams "controlUrbanRural" = Some "true")
  ∧ Compare.controlPoverty
      (Compare.readParams (("controlPoverty", "True") :: searchParams)) = false
  ∧ Compare.controlIncome
      (Compare.readParams (("controlIncome", "True") :: searchParams)) = false
  ∧ Compare.controlUrbanRural
      (Compare.readParams (("controlUrbanRural", "True") :: searchParams)) = false.
Proof.
  repeat apply conj; try apply strict_eq_true; reflexivity.
Qed.

End RouteFacts.

(** ** More on the route handlers *)

Module MoreRouteFacts.
Import JS Handler.

(** Settles on a given response whether the handler passed it a
    [Cache-Control] header. *)
Ltac cache_goal :=
  first [ intros _; by apply (bool_decide_unpack _)
        | intros value H; by apply elem_of_nil in H ].

Lemma compare_child_failure_witness :
  (Compare.GET Samples.sampleCwd Samples.sampleParse MoreSamples.killedChild
               Samples.sampleQuery []).1
  = Return {| status := 500;
              body := JObj [("error", JStr "Failed to compute adjusted comparison");
                            ("details",
                             JStr ("Command failed: "
                                   +:+ Compare.command Samples.sampleCwd
                                         (Compare.readParams Samples.sampleQuery)))];
              headers := [] |}.
Proof.
  apply (RouteFacts.compare_child_failure Samples.sampleCwd Samples.sampleParse
           MoreSamples.killedChild Samples.sampleQuery "01001" "36047' + '");
    by vm_compute.
Defined.

Lemma compare_malformed_output_witness :
  (Compare.GET Samples.sampleCwd Samples.sampleParse MoreSamples.chattyChild
               Samples.sampleQuery []).1
  = Return {| status := 500;
              body := JObj [("error", JStr "Failed to compute adjusted comparison");
                            ("details", JStr "Unexpected end of JSON input")];
              headers := [] |}.
Proof.
  apply (RouteFacts.compare_malformed_output Samples.sampleCwd Samples.sampleParse
           MoreSamples.chattyChild Samples.sampleQuery "01001" "36047' + '"
           "Traceback (most recent call last):" EmptyString);
    by vm_compute.
Defined.

Section Compare.
Context (cwd : string)
        (JSON_parse : string → outcome json)
        (child : string → Z → outcome (string * string)).

(** The steps of the handler after validation, for a child that
    answers. *)
Lemma compare_valid_run (searchParams : list (string * string)) (a b : string)
    (log : list effect) :
  get searchParams "countyA" = Some a → a ≠ EmptyString →
  get searchParams "countyB" = Some b → b ≠ EmptyString →
  Compare.GET cwd JSON_parse child searchParams log
  = let cmd := Compare.command cwd (Compare.readParams searchParams) in
    match child cmd 10000%Z with
    | Return (stdout, stderr) =>
        let log' :=
          (log ++ [Spawn cmd 10000%Z])
          ++ (if negb (String.eqb stderr EmptyString)
                 && negb (includes stderr "FutureWarning")
              then [ConsoleError "Python stderr:" stderr] else []) in
        match JSON_parse (trim stdout) with
        | Return result =>
            (Return {| status := 200; body := result;
                       headers := [("Cache-Control", "public, max-age=3600")] |},
             log')
        | Throw message =>
            (Return {| status := 500;
                       body := JObj [("error",
                                      JStr "Failed to compute adjusted comparison");
                                     ("details", JStr message)];
                       headers := [] |},
             log' ++ [ConsoleError "Error in compare API:" message])
        end
    | Throw message =>
        (Return {| status := 500;
                   body := JObj [("error",
                                  JStr "Failed to compute adjusted comparison");
                                 ("details", JStr message)];
                   headers := [] |},
         (log ++ [Spawn cmd 10000%Z])
         ++ [ConsoleError "Error in compare API:" message])
    end.
Proof.
  intros Ha Hane Hb Hbne.
  unfold Compare.GET, Compare.execAsync. cbv zeta.
  destruct (child _ _) as [[stdout stderr]|message] eqn:Hchild;
    unfold try_catch, bind, emit, lift, when, ret; simpl;
    rewrite Ha, Hb, (RouteFacts.truthy_nonempty a),
      (RouteFacts.truthy_nonempty b) by done; simpl.
  - destruct (negb (String.eqb stderr EmptyString) && _); simpl;
      destruct (JSON_parse _); simpl; by rewrite ?app_nil_r.
  - done.
Qed.

(** X3: on success the parsed output of the child is the body of a
    200 response with the one-hour caching header, whatever the child
    wrote to its error stream; that stream is logged when it is not
    empty and does not mention [FutureWarning]. *)
Theorem compare_success (searchParams : list (string * string))
    (a b stdout stderr : string) (result : json) :
  get searchParams "countyA" = Some a → a ≠ EmptyString →
  get searchParams "countyB" = Some b → b ≠ EmptyString →
  child (Compare.command cwd (Compare.readParams searchParams)) 10000%Z
    = Return (stdout, stderr) →
  JSON_parse (trim stdout) = Return result →
  Compare.GET cwd JSON_parse child searchParams []
  = (Return {| status := 200; body := result;
               headers := [("Cache-Control", "public, max-age=3600")] |},
     Spawn (Compare.command cwd (Compare.readParams searchParams)) 10000%Z
     :: (if negb (String.eqb stderr EmptyString)
            && negb (includes stderr "FutureWarning")
         then [ConsoleError "Python stderr:" stderr] else [])).
Proof.
  intros Ha Hane Hb Hbne Hchild Hparse.
  rewrite (compare_valid_run searchParams a b) by done. cbv zeta.
  by rewrite Hchild, Hparse.
Qed.

(** X4: whatever the request, the child and the parser do, the handler
    returns a response and lets no exception out; the status is 200,
    400 or 500, it is 400 exactly when a county is missing, at most
    one process is spawned, and the handler passes the one-hour
    [Cache-Control] header with every 200 response and no
    [Cache-Control] header with a 400 or 500 response. *)
Theorem compare_always_answers (searchParams : list (string * string))
    (log : list effect) :
  ∃ response log',
    Compare.GET cwd JSON_parse child searchParams log = (Return response, log')
    ∧ (status response = 200%Z ∨ status response = 400%Z
       ∨ status response = 500%Z)
    ∧ (status response = 400%Z
       ↔ truthy (get searchParams "countyA") = false
         ∨ truthy (get searchParams "countyB") = false)
    ∧ (length (spawned log') ≤ length (spawned log) + 1)%nat
    ∧ (status response = 200%Z →
       ("Cache-Control", "public, max-age=3600") ∈ headers response)
    ∧ (∀ value, ("Cache-Control", value) ∈ headers response →
                status response = 200%Z).
Proof.
  destruct (truthy (get searchParams "countyA")) eqn:Ta;
    [destruct (truthy (get searchParams "countyB")) eqn:Tb|].
  - apply MapFacts.truthy_Some in Ta as (a & Ha & Hane).
    apply MapFacts.truthy_Some in Tb as (b & Hb & Hbne).
    rewrite (compare_valid_run searchParams a b) by done. cbv zeta.
    destruct (child _ _) as [[stdout stderr]|message].
    + destruct (JSON_parse _); eexists _, _; (split; [reflexivity|]); simpl;
        unfold spawned; rewrite ?omap_app, ?length_app; simpl;
        (split; [auto|]); (split; [split; [done|by intros [|]]|]);
        (split; [destruct (_ && _); simpl; lia|]);
        split; first [done | cache_goal].
    + eexists _, _. split; [reflexivity|]. simpl.
      unfold spawned; rewrite ?omap_app, ?length_app; simpl.
      split; [auto|]. split; [split; [done|by intros [|]]|].
      split; [lia|]. split; first [done | cache_goal].
  - eexists _, log. split.
    { unfold Compare.GET, try_catch. simpl. by rewrite Ta, Tb. }
    simpl. split; [auto|]. split; [split; auto|]. split; [lia|].
    split; first [done | cache_goal].
  - eexists _, log. split.
    { unfold Compare.GET, try_catch. simpl. by rewrite Ta. }
    simpl. split; [auto|]. split; [split; auto|]. split; [lia|].
    split; first [done | cache_goal].
Qed.

End Compare.

Lemma compare_success_witness :
  Compare.GET Samples.sampleCwd Samples.sampleParse MoreSamples.warningChild
              Samples.sampleQuery []
  = (Return {| status := 200; body := JObj [];
               headers := [("Cache-Control", "public, max-age=3600")] |},
     [Spawn (Compare.command Samples.sampleCwd
               (Compare.readParams Samples.sampleQuery)) 10000%Z;
      ConsoleError "Python stderr:" "DeprecationWarning: pkg_resources"]).
Proof.
  apply (compare_success Samples.sampleCwd Samples.sampleParse
           MoreSamples.warningChild Samples.sampleQuery "01001" "36047' + '"
           "{}" "DeprecationWarning: pkg_resources" (JObj []));
    by vm_compute.
Defined.

Lemma compare_always_answers_witness :
  ∃ response log',
    Compare.GET Samples.sampleCwd Samples.sampleParse MoreSamples.killedChild
                [("countyA", "01001")] [] = (Return response, log')
    ∧ status response = 400%Z.
Proof.
  destruct (compare_always_answers Samples.sampleCwd Samples.sampleParse
              MoreSamples.killedChild [("countyA", "01001")] [])
    as (response & log' & Hrun & _ & H400 & _).
  exists response, log'. split; [exact Hrun|].
  apply H400. right. by vm_compute.
Defined.

Section Years.
Context (cwd : string) (path_join : list string → string)
        (files : gmap string Years.node)
        (JSON_parse : string → outcome json).

Let yearPath (year : string) : string :=
  path_join [cwd; "public"; "data"; "years"; year +:+ ".json"].

(** The three ways the handler ends. *)
Lemma years_run (year : string) (log : list effect) :
  Years.GET cwd path_join files JSON_parse year log
  = match files !! yearPath year with
    | None =>
        (Return {| status := 404;
                   body := JObj [("error", JStr ("Year " +:+ year +:+ " not found"))];
                   headers := [] |}, log)
    | Some node =>
        match match node with
              | Years.File contents => JSON_parse contents
              | Years.Directory =>
                  Throw "EISDIR: illegal operation on a directory, read"
              end with
        | Return data =>
            (Return {| status := 200; body := data;
                       headers :=
                         [("Content-Type", "application/json");
                          ("Cache-Control", "public, max-age=31536000, immutable")] |},
             log)
        | Throw message =>
            (Return {| status := 500;
                       body := JObj [("error", JStr "Failed to load year data")];
                       headers := [] |},
             log ++ [ConsoleError "Error loading year data:" message])
        end
    end.
Proof.
  subst yearPath. unfold Years.GET, Years.existsSync, Years.readFileSync,
    try_catch, bind, ret, throw, lift, emit. simpl.
  destruct (files !! _) as [[contents|]|]; simpl; [|done|done].
  by destruct (JSON_parse contents).
Qed.

(** X5: a published year is served as the parsed file, unchanged, with
    status 200 and the immutable one-year caching header, and nothing
    is logged. *)
Theorem years_success (year contents : string) (data : json) :
  files !! yearPath year = Some (Years.File contents) →
  JSON_parse contents = Return data →
  ∀ log,
    Years.GET cwd path_join files JSON_parse year log
    = (Return {| status := 200; body := data;
                 headers :=
                   [("Content-Type", "application/json");
                    ("Cache-Control", "public, max-age=31536000, immutable")] |},
       log).
Proof.
  intros Hfile Hparse log. rewrite years_run, Hfile. by rewrite Hparse.
Qed.

(** X6: the status tells the three cases apart: 404 exactly when
    nothing is stored at the path of the year, 200 exactly when a file
    is stored there and parses (the body is then the parsed document),
    500 otherwise; the handler passes the immutable [Cache-Control]
    header with every 200 response and no [Cache-Control] header with
    a 404 or 500 response; and no process is ever spawned. *)
Theorem years_status (year : string) (log : list effect) :
  ∃ response log',
    Years.GET cwd path_join files JSON_parse year log = (Return response, log')
    ∧ (status response = 404%Z ↔ files !! yearPath year = None)
    ∧ (status response = 200%Z
       ↔ ∃ contents,
           files !! yearPath year = Some (Years.File contents)
           ∧ JSON_parse contents = Return (body response))
    ∧ (status response = 200%Z ∨ status response = 404%Z
       ∨ status response = 500%Z)
    ∧ (status response = 200%Z →
       ("Cache-Control", "public, max-age=31536000, immutable")
         ∈ headers response)
    ∧ (∀ value, ("Cache-Control", value) ∈ headers response →
                status response = 200%Z)
    ∧ spawned log' = spawned log.
Proof.
  rewrite years_run.
  destruct (files !! yearPath year) as [[contents|]|] eqn:Hfile.
  - destruct (JSON_parse contents) as [data|message] eqn:Hparse;
      eexists _, _; (split; [reflexivity|]); simpl.
    + repeat apply conj; try done; try cache_goal; auto.
      intros _. by exists contents.
    + repeat apply conj; try done; try cache_goal; auto.
      * intros (c & [= <-] & Hc). by rewrite Hparse in Hc.
      * unfold spawned. rewrite omap_app. simpl. by rewrite app_nil_r.
  - eexists _, _. split; [reflexivity|]. simpl.
    repeat apply conj; try done; try cache_goal; auto.
    + by intros (c & [=] & _).
    + unfold spawned. rewrite omap_app. simpl. by rewrite app_nil_r.
  - eexists _, _. split; [reflexivity|]. simpl.
    repeat apply conj; try done; try cache_goal; auto.
    by intros (c & [=] & _).
Qed.

End Years.

Lemma years_success_witness :
  Years.GET Samples.sampleCwd Samples.samplePathJoin Samples.sampleFiles
            Samples.sampleParse "2023" []
  = (Return {| status := 200; body := JArr [];
               headers :=
                 [("Content-Type", "application/json");
                  ("Cache-Control", "public, max-age=31536000, immutable")] |},
     []).
Proof.
  apply (years_success Samples.sampleCwd Samples.samplePathJoin Samples.sampleFiles
           Samples.sampleParse "2023" "[]" (JArr [])); by vm_compute.
Defined.

(** A folder stored under the name of a year file is answered 500. *)
Lemma years_status_witness :
  ∃ response log',
    Years.GET Samples.sampleCwd Samples.samplePathJoin
              {[ "/app/public/data/years/2020.json" := Years.Directory ]}
              Samples.sampleParse "2020" [] = (Return response, log')
    ∧ status response = 500%Z.
Proof.
  destruct (years_status Samples.sampleCwd Samples.samplePathJoin
              {[ "/app/public/data/years/2020.json" := Years.Directory ]}
              Samples.sampleParse "2020" [])
    as (response & log' & Hrun & H404 & H200 & [H | [H | H]] & _).
  - exfalso. apply H200 in H as (contents & Hfile & _). by vm_compute in Hfile.
  - exfalso. apply H404 in H. by vm_compute in H.
  - by exists response, log'.
Defined.

End MoreRouteFacts.

(** ** The boundary route *)

Module GeojsonFacts.
Import JS.

(** Settles on a given response whether the handler passed it a
    [Cache-Control] header. *)
Ltac cache_goal :=
  first [ intros _; by apply (bool_decide_unpack _)
        | intros value H; by apply elem_of_nil in H ].

Section Runtime.
Context (cwd : string) (path_join : list string → string)
        (files : gmap string Years.node)
        (listing : string → list string)
        (JSON_parse : string → Handler.outcome Handler.json).

Let GET := Geojson.GET cwd path_join files listing JSON_parse.
Let boundaryPath : string :=
  path_join [cwd; "public"; "data"; "us_counties.geojson"].
Let dataFolder : string := path_join [cwd; "public"; "data"].

(** The response in each situation of the file system and the parser. *)
Lemma geojson_response (log : list Geojson.effect) :
  ∃ log',
    GET log
    = (Geojson.Return
         match files !! boundaryPath with
         | None =>
             match files !! dataFolder with
             | Some Years.Directory => Geojson.notFound boundaryPath
             | Some (Years.File _) =>
                 Geojson.failed ("Error: ENOTDIR: not a directory, scandir '"
                         +:+ dataFolder +:+ "'")
             | None =>
                 Geojson.failed ("Error: ENOENT: no such file or directory, scandir '"
                         +:+ dataFolder +:+ "'")
             end
         | Some Years.Directory =>
             Geojson.failed "Error: EISDIR: illegal operation on a directory, read"
         | Some (Years.File contents) =>
             match JSON_parse contents with
             | Handler.Throw message =>
                 Geojson.failed
                   (Geojson.String_error
                      {| Geojson.errorName := "SyntaxError";
                         Geojson.errorMessage := message |})
             | Handler.Return Handler.JNull =>
                 Geojson.failed "TypeError: Cannot read properties of null (reading 'features')"
             | Handler.Return geojson => Geojson.served geojson
             end
         end,
       log').
Proof.
  subst GET boundaryPath dataFolder.
  unfold Geojson.GET, Geojson.try_catch, Geojson.bind, Geojson.console_log,
    Geojson.console_error, Geojson.existsSync, Geojson.readdirSync,
    Geojson.readFileSync, Geojson.parse, Geojson.ret, Geojson.throw.
  destruct (files !! path_join [cwd; "public"; "data"; "us_counties.geojson"])
    as [[contents|]|]; simpl.
  - destruct (JSON_parse contents) as [geojson|message]; simpl; [|by eexists].
    destruct geojson as [|b|n|t|items|fields]; simpl; try (by eexists).
    destruct (Geojson.getProperty fields "features") as [[| | | | |]|];
      by eexists.
  - by eexists.
  - destruct (files !! path_join [cwd; "public"; "data"]) as [[c|]|]; simpl;
      by eexists.
Qed.

(** X7: with no boundary file, the answer depends on the data folder
    that the handler lists for its log: 404 with the path looked up
    when the folder is there, and 500 when it is not, because listing
    it throws. *)
Theorem geojson_missing_file :
  files !! boundaryPath = None →
  (files !! dataFolder = Some Years.Directory →
   (GET []).1 = Geojson.Return (Geojson.notFound boundaryPath))
  ∧ (files !! dataFolder ≠ Some Years.Directory →
     ∃ details, (GET []).1 = Geojson.Return (Geojson.failed details)).
Proof.
  intros Hfile. destruct (geojson_response []) as [log' Hrun].
  rewrite Hrun, Hfile. simpl. split.
  - by intros ->.
  - intros Hdir. destruct (files !! dataFolder) as [[c|]|];
      [by eexists|by destruct Hdir|by eexists].
Qed.

(** X8: a boundary file that holds the JSON document [null] is answered
    500, not 200: the handler reads [features] of the parsed document
    for its log, which throws on [null]. *)
Theorem geojson_null_document (contents : string) :
  files !! boundaryPath = Some (Years.File contents) →
  JSON_parse contents = Handler.Return Handler.JNull →
  (GET []).1
  = Geojson.Return
      (Geojson.failed
         "TypeError: Cannot read properties of null (reading 'features')").
Proof.
  intros Hfile Hparse. destruct (geojson_response []) as [log' Hrun].
  by rewrite Hrun, Hfile, Hparse.
Qed.

(** X9: the handler always returns a response; the status is 200
    exactly when the boundary file is there and parses to a document
    other than [null], which is then the body, sent with the
    [application/geo+json] type and the immutable caching header; it
    is 404 exactly when the file is missing beside an existing data
    folder; it is 500 in every other case; the handler passes no
    [Cache-Control] header with a 404 or 500 response. *)
Theorem geojson_status (log : list Geojson.effect) :
  ∃ response log',
    GET log = (Geojson.Return response, log')
    ∧ (Handler.status response = 200%Z
       ↔ ∃ contents,
           files !! boundaryPath = Some (Years.File contents)
           ∧ JSON_parse contents = Handler.Return (Handler.body response)
           ∧ Handler.body response ≠ Handler.JNull
           ∧ response = Geojson.served (Handler.body response))
    ∧ (Handler.status response = 404%Z
       ↔ files !! boundaryPath = None
         ∧ files !! dataFolder = Some Years.Directory)
    ∧ (Handler.status response = 200%Z ∨ Handler.status response = 404%Z
       ∨ Handler.status response = 500%Z)
    ∧ (Handler.status response = 200%Z →
       ("Cache-Control", "public, max-age=31536000, immutable")
         ∈ Handler.headers response)
    ∧ (∀ value, ("Cache-Control", value) ∈ Handler.headers response →
                Handler.status response = 200%Z).
Proof.
  destruct (geojson_response log) as [log' Hrun].
  eexists _, log'. split; [exact Hrun|]. clear Hrun.
  destruct (files !! boundaryPath) as [[contents|]|] eqn:Hfile.
  - destruct (JSON_parse contents) as [geojson|message] eqn:Hparse.
    + destruct geojson as [|b|n|t|items|fields]; simpl;
        (repeat apply conj; try done; try cache_goal; auto;
         [ try (intros _; by eexists);
           try (intros (c & [= <-] & Hc & _); by rewrite Hparse in Hc)
         | by intros [[=] _] ]).
    + simpl. repeat apply conj; try done; try cache_goal; auto.
      * intros (c & [= <-] & Hc & _). by rewrite Hparse in Hc.
      * by intros [[=] _].
  - simpl. repeat apply conj; try done; try cache_goal; auto.
    + by intros (c & [=] & _).
    + by intros [[=] _].
  - destruct (files !! dataFolder) as [[c|]|] eqn:Hdir; simpl;
      repeat apply conj; try done; try cache_goal; auto;
      try (by intros (c' & [=] & _)); try (by intros [_ [=]]).
Qed.

End Runtime.

Lemma geojson_missing_file_witness :
  (Geojson.GET Samples.sampleCwd Samples.samplePathJoin
               MoreSamples.filesWithoutBoundaries MoreSamples.sampleListing
               Samples.sampleParse []).1
  = Geojson.Return (Geojson.notFound "/app/public/data/us_counties.geojson")
  ∧ ∃ details,
      (Geojson.GET Samples.sampleCwd Samples.samplePathJoin
                   MoreSamples.filesWithoutData MoreSamples.sampleListing
                   Samples.sampleParse []).1
      = Geojson.Return (Geojson.failed details).
Proof.
  split.
  - apply (geojson_missing_file Samples.sampleCwd Samples.samplePathJoin
             MoreSamples.filesWithoutBoundaries MoreSamples.sampleListing
             Samples.sampleParse); by vm_compute.
  - apply (geojson_missing_file Samples.sampleCwd Samples.samplePathJoin
             MoreSamples.filesWithoutData MoreSamples.sampleListing
             Samples.sampleParse); by vm_compute.
Defined.

Lemma geojson_null_document_witness :
  (Geojson.GET Samples.sampleCwd Samples.samplePathJoin
               MoreSamples.filesWithNull MoreSamples.sampleListing
               MoreSamples.parseWithNull []).1
  = Geojson.Return
      (Geojson.failed
         "TypeError: Cannot read properties of null (reading 'features')").
Proof.
  apply (geojson_null_document Samples.sampleCwd Samples.samplePathJoin
           MoreSamples.filesWithNull MoreSamples.sampleListing
           MoreSamples.parseWithNull "null"); by vm_compute.
Defined.

Lemma geojson_status_witness :
  ∃ response log',
    Geojson.GET Samples.sampleCwd Samples.samplePathJoin
                MoreSamples.filesWithBoundaries MoreSamples.sampleListing
                Samples.sampleParse [] = (Geojson.Return response, log')
    ∧ response = Geojson.served (Handler.JObj []).
Proof.
  destruct (geojson_status Samples.sampleCwd Samples.samplePathJoin
              MoreSamples.filesWithBoundaries MoreSamples.sampleListing
              Samples.sampleParse [])
    as (response & log' & Hrun & H200 & H404 & [H | [H | H]] & _).
  - exists response, log'. split; [exact Hrun|].
    apply H200 in H as (contents & Hfile & Hparse & _ & Hserved).
    vm_compute in Hfile. injection Hfile as <-.
    change (Samples.sampleParse "{}") with (Handler.Return (Handler.JObj []))
      in Hparse.
    injection Hparse as Hbody. by rewrite Hserved, <- Hbody.
  - exfalso. apply H404 in H as [H _]. by vm_compute in H.
  - exfalso. vm_compute in Hrun. injection Hrun as <- _. by vm_compute in H.
Defined.

End GeojsonFacts.

(** ** More on the county map *)

Module MoreMapFacts.
Import JS CountyMapGL CountyMapView.

(** *** Legend and colours *)

Lemma legend_attained (m : Metric) (c : string) :
  c ∈ (legend m).*1 →
  ∃ z : Z, getColorForValue (Some (lit z)) (isRepublicanMargin m) = c.
Proof.
  destruct m; simpl; rewrite ?elem_of_cons, elem_of_nil.
  - intros [-> | [-> | [-> | [-> | [-> | []]]]]];
      [by exists 5%Z|by exists 15%Z|by exists 25%Z|by exists 35%Z|by exists 45%Z].
  - intros [-> | [-> | [-> | [-> | [-> | [-> | []]]]]]];
      [by exists (-50)%Z|by exists (-30)%Z|by exists (-10)%Z
      |by exists 10%Z|by exists 30%Z|by exists 50%Z].
Qed.

(** X10: the legend of a metric shows exactly the colours that
    [getColorForValue] gives to numbers under that metric, each once;
    the colour of a missing value is not among them. *)
Theorem legend_exact (m : Metric) :
  (∀ x, getColorForValue (Some x) (isRepublicanMargin m) ∈ (legend m).*1)
  ∧ (∀ c, c ∈ (legend m).*1 →
          ∃ x, getColorForValue (Some x) (isRepublicanMargin m) = c)
  ∧ NoDup (legend m).*1
  ∧ getColorForValue None (isRepublicanMargin m) ∉ (legend m).*1.
Proof.
  repeat apply conj.
  - intros x. destruct m; simpl;
      repeat (match goal with |- context [if ?c then _ else _] => destruct c end);
      set_solver.
  - intros c Hc. destruct (legend_attained m c Hc) as [z Hz]. by exists (lit z).
  - destruct m; by apply (bool_decide_unpack _).
  - destruct m; by apply (bool_decide_unpack _).
Qed.

Lemma legend_exact_witness :
  ∃ x, getColorForValue (Some x) true = "#93c5fd".
Proof.
  apply (proj1 (proj2 (legend_exact republicanMargin))).
  by apply (bool_decide_unpack _).
Defined.

(** Reads the position of a colour in a legend off a lookup. *)
Ltac legend_position H i :=
  first
    [ discriminate H
    | destruct i as [|i];
      [ try discriminate H | simpl in H; legend_position H i ] ].

Lemma mortality_position (q : Q) (i : nat) :
  (legend drugDeaths).*1 !! i = Some (getColorForValue (Some (Finite q)) false) →
  (i = 0%nat ∧ (q <= 10)%Q)
  ∨ (i = 1%nat ∧ (10 < q)%Q ∧ (q <= 20)%Q)
  ∨ (i = 2%nat ∧ (20 < q)%Q ∧ (q <= 30)%Q)
  ∨ (i = 3%nat ∧ (30 < q)%Q ∧ (q <= 40)%Q)
  ∨ (i = 4%nat ∧ (40 < q)%Q).
Proof.
  intros H. unfold getColorForValue in H.
  destruct (Finite q >? lit 40)%js eqn:E40;
    [apply ColourFacts.gt_finite in E40
    |apply ColourFacts.gt_finite_false in E40;
     destruct (Finite q >? lit 30)%js eqn:E30;
       [apply ColourFacts.gt_finite in E30
       |apply ColourFacts.gt_finite_false in E30;
        destruct (Finite q >? lit 20)%js eqn:E20;
          [apply ColourFacts.gt_finite in E20
          |apply ColourFacts.gt_finite_false in E20;
           destruct (Finite q >? lit 10)%js eqn:E10;
             [apply ColourFacts.gt_finite in E10
             |apply ColourFacts.gt_finite_false in E10]]]];
    legend_position H i; unfold inject_Z in *; tauto.
Qed.

Lemma political_position (q : Q) (i : nat) :
  (legend republicanMargin).*1 !! i
    = Some (getColorForValue (Some (Finite q)) true) →
  (i = 0%nat ∧ (q <= -40)%Q)
  ∨ (i = 1%nat ∧ (-40 < q)%Q ∧ (q <= -20)%Q)
  ∨ (i = 2%nat ∧ (-20 < q)%Q ∧ (q <= 0)%Q)
  ∨ (i = 3%nat ∧ (0 < q)%Q ∧ (q <= 20)%Q)
  ∨ (i = 4%nat ∧ (20 < q)%Q ∧ (q <= 40)%Q)
  ∨ (i = 5%nat ∧ (40 < q)%Q).
Proof.
  intros H. unfold getColorForValue in H.
  destruct (Finite q >? lit 40)%js eqn:E40;
    [apply ColourFacts.gt_finite in E40
    |apply ColourFacts.gt_finite_false in E40;
     destruct (Finite q >? lit 20)%js eqn:E20;
       [apply ColourFacts.gt_finite in E20
       |apply ColourFacts.gt_finite_false in E20;
        destruct (Finite q >? lit 0)%js eqn:E0;
          [apply ColourFacts.gt_finite in E0
          |apply ColourFacts.gt_finite_false in E0;
           destruct (Finite q >? lit (-20))%js eqn:Em20;
             [apply ColourFacts.gt_finite in Em20
             |apply ColourFacts.gt_finite_false in Em20;
              destruct (Finite q >? lit (-40))%js eqn:Em40;
                [apply ColourFacts.gt_finite in Em40
                |apply ColourFacts.gt_finite_false in Em40]]]]];
    legend_position H i; unfold inject_Z in *; tauto.
Qed.

(** X11: the legend is ordered like the values: of two finite values the
    larger one never has the colour drawn earlier in the legend. *)
Theorem colour_follows_legend_order (m : Metric) (q1 q2 : Q) (i j : nat) :
  (q1 <= q2)%Q →
  (legend m).*1 !! i
    = Some (getColorForValue (Some (Finite q1)) (isRepublicanMargin m)) →
  (legend m).*1 !! j
    = Some (getColorForValue (Some (Finite q2)) (isRepublicanMargin m)) →
  (i ≤ j)%nat.
Proof.
  intros Hle Hi Hj. destruct m.
  - apply mortality_position in Hi, Hj.
    destruct Hi as [Hi|[Hi|[Hi|[Hi|Hi]]]], Hj as [Hj|[Hj|[Hj|[Hj|Hj]]]];
      destruct_and!; subst; first [lia | exfalso; lra].
  - apply political_position in Hi, Hj.
    destruct Hi as [Hi|[Hi|[Hi|[Hi|[Hi|Hi]]]]], Hj as [Hj|[Hj|[Hj|[Hj|[Hj|Hj]]]]];
      destruct_and!; subst; first [lia | exfalso; lra].
Qed.

Lemma colour_follows_legend_order_witness : (1 ≤ 3)%nat.
Proof.
  apply (colour_follows_legend_order drugDeaths (12 # 1) (40 # 1) 1 3);
    [by vm_compute|reflexivity|reflexivity].
Defined.

(** *** Tooltip *)

(** Membership of a given colour in a given list of colours. *)
Ltac colour_listed := by apply (bool_decide_unpack _).
Ltac colour_not_listed H :=
  apply (bool_decide_pack _) in H; by vm_compute in H.

Lemma gt_zero_colour (v : number) :
  (v >? lit 0)%js = true
  ↔ getColorForValue (Some v) true ∈ ["#7f1d1d"; "#dc2626"; "#fca5a5"].
Proof.
  destruct v as [| | |q].
  - split; [done|]. intros H. colour_not_listed H.
  - split; [intros _; colour_listed|done].
  - split; [done|]. intros H. colour_not_listed H.
  - unfold getColorForValue.
    destruct (Finite q >? lit 0)%js eqn:E0.
    + split; [intros _|done].
      destruct (Finite q >? lit 40)%js; [colour_listed|].
      destruct (Finite q >? lit 20)%js; colour_listed.
    + apply ColourFacts.gt_finite_false in E0.
      destruct (Finite q >? lit 40)%js eqn:E40;
        [apply ColourFacts.gt_finite in E40; exfalso; unfold inject_Z in *; lra|].
      destruct (Finite q >? lit 20)%js eqn:E20;
        [apply ColourFacts.gt_finite in E20; exfalso; unfold inject_Z in *; lra|].
      split; [done|]. intros H.
      destruct (Finite q >? lit (-20))%js; [colour_not_listed H|].
      destruct (Finite q >? lit (-40))%js; colour_not_listed H.
Qed.

Lemma le_zero_colour (v : number) :
  (v >? lit 0)%js = false
  ↔ getColorForValue (Some v) true ∈ ["#93c5fd"; "#2563eb"; "#1e3a8a"].
Proof.
  pose proof (gt_zero_colour v) as Hred.
  destruct (v >? lit 0)%js eqn:E0.
  - split; [done|]. intros Hblue. exfalso.
    assert (getColorForValue (Some v) true
              ∈ ["#7f1d1d"; "#dc2626"; "#fca5a5"]) as Hr by by apply Hred.
    revert Hr Hblue. generalize (getColorForValue (Some v) true). intros c.
    rewrite !elem_of_cons, !elem_of_nil.
    intros [->|[->|[->|[]]]] [H|[H|[H|[]]]]; discriminate H.
  - split; [intros _|done].
    unfold getColorForValue.
    destruct (v >? lit 40)%js eqn:E40.
    { exfalso. assert (false = true) as Hf; [|done].
      apply Hred. unfold getColorForValue. rewrite E40. colour_listed. }
    destruct (v >? lit 20)%js eqn:E20.
    { exfalso. assert (false = true) as Hf; [|done].
      apply Hred. unfold getColorForValue. rewrite E40, E20. colour_listed. }
    rewrite E0.
    destruct (v >? lit (-20))%js; [colour_listed|].
    destruct (v >? lit (-40))%js; colour_listed.
Qed.

Lemma party_prefix (rest : string) :
  String.prefix "R+" ("R+" +:+ rest) = true
  ∧ String.prefix "D+" ("D+" +:+ rest) = true
  ∧ String.prefix "R+" ("D+" +:+ rest) = false
  ∧ String.prefix "D+" ("R+" +:+ rest) = false.
Proof. repeat apply conj; simpl; try reflexivity; by destruct rest. Qed.

Section Formatting.
Context (toFixed : number → nat → string)
        (toLocaleString : number → string).

(** X12: the party letter of the tooltip agrees with the colour family
    of the political map: the text starts with [R+] exactly when the
    margin is coloured in one of the three reds, and with [D+] exactly
    when it is coloured in one of the three blues (a margin of 0 is a
    blue [D+]). *)
Theorem lean_text_matches_colour (h : Hovered) (v : number) :
  RepublicanMargin (county h) = Some v →
  (String.prefix "R+" (politicalLeanText (tooltip toFixed toLocaleString h)) = true
   ↔ getColorForValue (Some v) true ∈ ["#7f1d1d"; "#dc2626"; "#fca5a5"])
  ∧ (String.prefix "D+" (politicalLeanText (tooltip toFixed toLocaleString h)) = true
     ↔ getColorForValue (Some v) true ∈ ["#93c5fd"; "#2563eb"; "#1e3a8a"]).
Proof.
  intros Hv. rewrite <- (gt_zero_colour v), <- (le_zero_colour v).
  simpl. rewrite Hv. simpl.
  destruct (party_prefix (toFixed (Math_abs v) 1 +:+ "%"))
    as (HRR & HDD & HRD & HDR).
  destruct (v >? lit 0)%js; rewrite ?HRR, ?HDD, ?HRD, ?HDR; by split.
Qed.

End Formatting.

Lemma lean_text_matches_colour_witness :
  String.prefix "D+"
    (politicalLeanText (tooltip MoreSamples.sampleToFixed
                                MoreSamples.sampleToLocaleString
                                MoreSamples.kingsHovered)) = true
  ↔ getColorForValue (Some (Finite (- 553 # 10))) true
      ∈ ["#93c5fd"; "#2563eb"; "#1e3a8a"].
Proof.
  apply (lean_text_matches_colour MoreSamples.sampleToFixed
           MoreSamples.sampleToLocaleString MoreSamples.kingsHovered
           (Finite (- 553 # 10))).
  reflexivity.
Defined.

(** *** Loader *)

Lemma foldl_storeCounty_lookup (data : list CountyData)
    (m : gmap string CountyData) (k : string) :
  k ≠ EmptyString → k ≠ "0" → k ≠ "__proto__" →
  foldl storeCounty m data !! k
  = match last (filter (λ c, fips c = Some k) data) with
    | Some c => Some c
    | None => m !! k
    end.
Proof.
  intros Hne H0 Hp. revert m.
  induction data as [|c data IH]; intros m; simpl; [done|].
  rewrite IH. rewrite filter_cons.
  destruct (decide (fips c = Some k)) as [Hc|Hc].
  - rewrite (MapFacts.storeCounty_kept m c k) by done.
    rewrite lookup_insert_eq, last_cons.
    by destruct (last (filter _ data)).
  - destruct (last (filter _ data)); [done|].
    destruct (MapFacts.storeCounty_cases m c) as [-> | (k' & Hk' & _ & _ & ->)];
      [done|].
    rewrite lookup_insert_ne; [done|]. intros ->. by apply Hc.
Qed.

(** The name [__proto__] never becomes a key. *)
Lemma storeCounty_no_proto_key (m : gmap string CountyData) (c : CountyData) :
  storeCounty m c !! "__proto__" = m !! "__proto__".
Proof.
  unfold storeCounty.
  destruct (truthy (fips c) && negb (strict_eq (fips c) "0")); [|done].
  destruct (strict_eq (fips c) "__proto__") eqn:Hp; [done|].
  apply lookup_insert_ne. intros Hk.
  destruct (fips c) as [k|] eqn:Hf; simpl in Hk, Hp; [|done].
  subst k. by rewrite String.eqb_refl in Hp.
Qed.

Lemma foldl_storeCounty_no_proto_key (data : list CountyData)
    (m : gmap string CountyData) :
  foldl storeCounty m data !! "__proto__" = m !! "__proto__".
Proof.
  revert m. induction data as [|c data IH]; intros m; simpl; [done|].
  by rewrite IH, storeCounty_no_proto_key.
Qed.

Lemma foldl_storePrototype (data : list CountyData) (proto : option CountyData) :
  foldl storePrototype proto data
  = match last (filter (λ c, fips c = Some "__proto__") data) with
    | Some c => Some c
    | None => proto
    end.
Proof.
  revert proto. induction data as [|c data IH]; intros proto; simpl; [done|].
  rewrite IH, filter_cons.
  destruct (decide (fips c = Some "__proto__")) as [Hc|Hc].
  - unfold storePrototype. rewrite Hc. simpl. rewrite last_cons.
    by destruct (last (filter _ data)).
  - destruct (last (filter _ data)); [done|].
    unfold storePrototype.
    destruct (truthy (fips c) && negb (strict_eq (fips c) "0")); [|done].
    destruct (strict_eq (fips c) "__proto__") eqn:Hp; [|done].
    by apply RouteFacts.strict_eq_true in Hp.
Qed.

(** X13: under a code that is not empty, not ["0"] and not
    ["__proto__"] the loader keeps the last record of the fetched array
    that carries this code (nothing if there is none); under the empty
    code, under ["0"] and under ["__proto__"] it keeps no key; the last
    record whose code is ["__proto__"] becomes the prototype of the
    data object instead. *)
Theorem loader_last_record_wins (data : list CountyData) (k : string) :
  buildDataMap data !! k
  = (if bool_decide (k ≠ EmptyString ∧ k ≠ "0" ∧ k ≠ "__proto__")
     then last (filter (λ c, fips c = Some k) data)
     else None)
  ∧ buildPrototype data
    = last (filter (λ c, fips c = Some "__proto__") data).
Proof.
  split.
  - case_bool_decide as Hk.
    + destruct Hk as (Hne & H0 & Hp). unfold buildDataMap.
      rewrite foldl_storeCounty_lookup by done. rewrite lookup_empty.
      by destruct (last _).
    + destruct (buildDataMap data !! k) as [d|] eqn:Hd; [|done].
      exfalso. apply Hk.
      destruct (MapFacts.buildDataMap_keys_ok data k d Hd) as (? & ? & _).
      repeat split; try done. intros ->.
      unfold buildDataMap in Hd.
      by rewrite foldl_storeCounty_no_proto_key, lookup_empty in Hd.
  - unfold buildPrototype. rewrite foldl_storePrototype.
    by destruct (last _).
Qed.

(** *** Hover *)

(** X14: in every state the component reaches, hovering a feature that
    has a record puts that record in the tooltip, under the name of
    the feature, and the code the tooltip shows is the code of the
    feature. *)
Theorem hover_shows_feature_code (events : list Event) (feature : Feature)
    (rest : list Feature) (data : CountyData) :
  map_current (run events) ≠ None →
  countyData (run events) !! property_key (GEOID feature) = Some data →
  hoveredCounty (handleMouseMove (feature :: rest) (run events))
    = Some {| name := NAME feature; county := data |}
  ∧ fips data = Some (property_key (GEOID feature)).
Proof.
  intros Hmap Hdata. split.
  - unfold handleMouseMove.
    rewrite (MapFacts.getProperty_own _ _ _ data Hdata).
    by destruct (map_current (run events)).
  - by destruct (MapFacts.run_keys_ok events _ _ Hdata) as (_ & _ & ?).
Qed.

Lemma hover_shows_feature_code_witness :
  hoveredCounty
    (handleMouseMove [ {| GEOID := Some "36047"; NAME := Some "Kings" |} ]
       (run [MapRef (Some Samples.freshMap);
             DataFetched [Samples.autauga; Samples.kings]]))
  = Some {| name := Some "Kings"; county := Samples.kings |}
  ∧ fips Samples.kings = Some "36047".
Proof.
  apply (hover_shows_feature_code
           [MapRef (Some Samples.freshMap);
            DataFetched [Samples.autauga; Samples.kings]]
           {| GEOID := Some "36047"; NAME := Some "Kings" |} []
           Samples.kings); by vm_compute.
Defined.

(** *** Layer and life cycle *)

Lemma eval_fillExpression_total (cd : gmap string CountyData) (m : Metric)
    (geoid : option string) :
  cd ≠ ∅ →
  eval_match (fillExpression cd m) geoid
  = Some (VStr match geoid ≫= (λ k, cd !! k) with
               | Some data => entryColor m data
               | None => "#e5e7eb"
               end).
Proof.
  intros Hne. rewrite MapFacts.eval_fillExpression by done. f_equal.
  destruct (geoid ≫= (λ k, cd !! k)) as [data|] eqn:Hlook.
  - destruct geoid as [k|]; [|done]. simpl in Hlook.
    apply MapFacts.select_branch_hit.
    + rewrite <- !list_fmap_compose. apply NoDup_fst_map_to_list.
    + apply list_elem_of_fmap. exists (k, entryColor m data). split; [done|].
      apply list_elem_of_fmap. exists (k, data).
      split; [done|by apply elem_of_map_to_list].
  - apply MapFacts.select_branch_miss. intros k -> Hin. simpl in Hlook.
    rewrite <- !list_fmap_compose in Hin.
    apply list_elem_of_fmap in Hin as ([k' d] & Hk & Hin). simpl in Hk. subst k'.
    apply elem_of_map_to_list in Hin. by rewrite Hlook in Hin.
Qed.

(** X15: when the layer effect is not skipped and the boundaries arrive
    on a map without the county layer, the layer ends up painted with
    the expression built from the data and metric of that render, and
    the map library accepts it: every feature gets the colour of its
    record, or the default colour when it has none. *)
Theorem layer_effect_paints (closure : State) (mp : MapGL) :
  layerEffectSkipped closure = false →
  countiesFill mp = None →
  countiesLoaded closure (Some mp)
  = Some {| countiesFill :=
              Some (PaintExpression
                      (fillExpression (countyData closure) (metric closure)));
            cursor := cursor mp |}
  ∧ ∀ geoid,
      eval_match (fillExpression (countyData closure) (metric closure)) geoid
      = Some (VStr match geoid ≫= (λ k, countyData closure !! k) with
                   | Some data =>
                       getColorForValue (metricValue (metric closure) data)
                                        (isRepublicanMargin (metric closure))
                   | None => "#e5e7eb"
                   end).
Proof.
  intros Hguard Hfill. split.
  - unfold countiesLoaded. by rewrite Hfill.
  - intros geoid. apply eval_fillExpression_total.
    unfold layerEffectSkipped in Hguard.
    destruct (map_current closure); [|done].
    apply orb_false_iff in Hguard as [_ Hlen].
    intros Hempty. rewrite Hempty, map_to_list_empty in Hlen. done.
Qed.

(** A polygon without a record is drawn in the default colour, and
    Kings County, at a rate of exactly 40, in the colour of 30-40. *)
Lemma layer_effect_paints_witness :
  eval_match (fillExpression Samples.loaded drugDeaths) (Some "02063")
  = Some (VStr "#e5e7eb")
  ∧ eval_match (fillExpression Samples.loaded drugDeaths) (Some "36047")
    = Some (VStr "#dc2626").
Proof.
  destruct (layer_effect_paints MoreSamples.readyState
              {| countiesFill := None; cursor := EmptyString |})
    as [_ Heval]; [by vm_compute..|].
  change (countyData MoreSamples.readyState) with Samples.loaded in Heval.
  change (metric MoreSamples.readyState) with drugDeaths in Heval.
  rewrite !Heval. split; by vm_compute.
Defined.

Lemma step_keeps_no_map (st : State) (e : Event) :
  (∀ mp, e ≠ MapRef mp) → map_current st = None →
  map_current (step st e) = None.
Proof.
  intros He Hmap. destruct e as [data|m|features| |mp]; simpl.
  - unfold updateMapColors. simpl. by rewrite Hmap.
  - unfold updateMapColors. simpl. by rewrite Hmap.
  - unfold handleMouseMove. by rewrite Hmap.
  - by rewrite Hmap.
  - by destruct (He mp).
Qed.

Lemma foldl_step_keeps_no_map (events : list Event) (st : State) :
  Forall (λ e, ∀ mp, e ≠ MapRef mp) events → map_current st = None →
  map_current (foldl step st events) = None.
Proof.
  revert st. induction events as [|e events IH]; intros st Hev Hmap; [done|].
  apply Forall_cons in Hev as [He Hev]. simpl.
  by apply IH, step_keeps_no_map.
Qed.

(** X16: the mount effect runs on the first output, which is the
    loading placeholder, so it finds no container and creates no map;
    from there on no arrival of data, choice of metric or pointer
    event creates one: [map.current] stays [null], the layer effect is
    skipped, and [updateMapColors] and the pointer-move handler leave
    the state as it is. *)
Theorem mount_creates_no_map (events : list Event) :
  Forall (λ e, ∀ mp, e ≠ MapRef mp) events →
  map_current mounted = None
  ∧ map_current (foldl step mounted events) = None
  ∧ layerEffectSkipped (foldl step mounted events) = true
  ∧ updateMapColors (foldl step mounted events) = foldl step mounted events
  ∧ ∀ features,
      handleMouseMove features (foldl step mounted events)
      = foldl step mounted events.
Proof.
  intros Hev.
  assert (map_current (foldl step mounted events) = None) as Hnone
    by by apply foldl_step_keeps_no_map.
  repeat apply conj; try done.
  - unfold layerEffectSkipped. by rewrite Hnone.
  - unfold updateMapColors. by rewrite Hnone.
  - intros features. unfold handleMouseMove. by rewrite Hnone.
Qed.

Lemma mount_creates_no_map_witness :
  map_current
    (foldl step mounted
       [DataFetched [Samples.autauga; Samples.kings];
        MetricSelected republicanMargin]) = None.
Proof.
  apply (mount_creates_no_map
           [DataFetched [Samples.autauga; Samples.kings];
            MetricSelected republicanMargin]).
  repeat constructor; by intros mp.
Defined.


End MoreMapFacts.
